(** * Invoice generator: spreadsheet rows to PDF invoices

    A shallow embedding of [invoice_generator.py] (class [InvoiceGenerator]:
    [load_config], [read_excel_data], [calculate_totals], [generate_pdf],
    [process_excel_file]), of [allowed_file], [upload_file] and
    [download_invoice] from [web_app.py], and of the sheet that
    [create_sample_data.py] writes, followed by the properties proved about
    them.

    Numbers are IEEE 754 binary64 values (Rocq's primitive floats), as in
    Python.  The cells of a sheet are the Python objects openpyxl hands out
    with [values_only=True].  Exceptions are explicit results. *)

From Stdlib Require Import ZArith Floats String Ascii List DecimalString Lia.
From stdpp Require Import gmap strings list.

Local Open Scope Z_scope.

(** ** Python objects, exceptions and builtins *)

Module Py.

(** The exception classes that the program can meet. *)
Inductive exn : Type :=
  | ValueError
  | TypeError
  | OverflowError
  | OSError.

(** The outcome of evaluating Python code: a value, or a raised exception. *)
Inductive result (A : Type) : Type :=
  | Ok (a : A)
  | Raise (e : exn).
Arguments Ok {A} a.
Arguments Raise {A} e.

#[global] Instance result_ret : MRet result := @Ok.
#[global] Instance result_bind : MBind result := λ A B f m,
  match m with
  | Ok a => f a
  | Raise e => Raise e
  end.

Definition is_ok {A} (r : result A) : bool :=
  match r with Ok _ => true | Raise _ => false end.

(** [datetime.datetime], naive (no time zone). *)
Record datetime : Type := mk_datetime {
  year : Z; month : Z; day : Z;
  hour : Z; minute : Z; second : Z; microsecond : Z
}.

(** The value of a cell: [None] for an empty cell, [bool], [int], [float],
    [str], or [datetime.datetime] for a date cell. *)
Inductive value : Type :=
  | VNone
  | VBool (b : bool)
  | VInt (z : Z)
  | VFloat (f : float)
  | VStr (s : string)
  | VDateTime (d : datetime).

(** Truth value testing, as in [if x:] and [x or y]. *)
Definition truthy (v : value) : bool :=
  match v with
  | VNone => false
  | VBool b => b
  | VInt z => negb (z =? 0)
  | VFloat f => negb (PrimFloat.eqb f 0)
  | VStr s => negb (String.eqb s "")
  | VDateTime _ => true
  end.

(** [a or b] *)
Definition py_or (a b : value) : value := if truthy a then a else b.

(** [str(n)] for an [int]. *)
Definition str_of_Z (z : Z) : string := NilZero.string_of_int (Z.to_int z).

Fixpoint zeros (n : nat) : string :=
  match n with O => "" | S n' => String "0" (zeros n') end.

(** The digits of [z], padded with zeros on the left to at least [width]
    characters ([%02d], [%04d], [%06d]). *)
Definition zero_pad (width : nat) (z : Z) : string :=
  let s := str_of_Z z in
  zeros (width - String.length s) +:+ s.

(** [d.strftime('%Y-%m-%d')] (years from 1000 on have four digits on every
    platform; earlier years are padded as Python's own [isoformat] does) *)
Definition strftime_ymd (d : datetime) : string :=
  zero_pad 4 (year d) +:+ "-" +:+ zero_pad 2 (month d) +:+ "-" +:+ zero_pad 2 (day d).

(** [d.strftime('%Y-%m-%d %H:%M:%S')] *)
Definition strftime_ymd_hms (d : datetime) : string :=
  strftime_ymd d +:+ " " +:+ zero_pad 2 (hour d) +:+ ":" +:+
  zero_pad 2 (minute d) +:+ ":" +:+ zero_pad 2 (second d).

(** [str(d)], which is [d.isoformat(sep=' ')] *)
Definition str_of_datetime (d : datetime) : string :=
  strftime_ymd_hms d +:+
  (if microsecond d =? 0 then "" else "." +:+ zero_pad 6 (microsecond d)).

(** [float(n)] for an [int]: the nearest binary64 value, ties to even;
    [OverflowError] when that is not finite. *)
Definition float_of_Z (z : Z) : result float :=
  let f := SF2Prim (binary_normalize prec emax z 0 false) in
  if is_infinity f then Raise OverflowError else Ok f.

(** The builtins whose result depends on the interpreter's float algorithms.
    The program is modelled over any implementation of them; [CPython] below
    is the one used to run it. *)
Class Builtins : Type := {
  (** [float(s)] for a [str]; [None] stands for [ValueError] *)
  float_of_str : string → option float;
  (** [str(x)] for a [float] *)
  str_of_float : float → string;
  (** [format(x, '.Nf')], the [{x:.Nf}] of an f-string *)
  format_fixed : nat → float → string;
  (** [sum(xs)] over floats, from the start value [0] *)
  float_sum : list float → float
}.

Section WithBuiltins.
Context `{Builtins}.

(** [float(v)] *)
Definition py_float (v : value) : result float :=
  match v with
  | VNone => Raise TypeError
  | VBool b => Ok (if b then 1 else 0)%float
  | VInt z => float_of_Z z
  | VFloat f => Ok f
  | VStr s => match float_of_str s with Some f => Ok f | None => Raise ValueError end
  | VDateTime _ => Raise TypeError
  end.

(** [str(v)] *)
Definition py_str (v : value) : string :=
  match v with
  | VNone => "None"
  | VBool b => if b then "True" else "False"
  | VInt z => str_of_Z z
  | VFloat f => str_of_float f
  | VStr s => s
  | VDateTime d => str_of_datetime d
  end.

End WithBuiltins.

End Py.

Import Py.

(** ** The builtins as CPython computes them

    Text is ASCII; a cell holding other characters is outside this model. *)

Module CPythonImpl.
Import Py.

(** *** Reading a float: [float(s)] *)

Definition is_space (c : ascii) : bool :=
  let n := nat_of_ascii c in
  ((9 <=? n) && (n <=? 13) || (n =? 32))%nat.

Definition digit_of (c : ascii) : option Z :=
  let n := Z.of_nat (nat_of_ascii c) in
  if (48 <=? n) && (n <=? 57) then Some (n - 48) else None.

Definition lower (c : ascii) : ascii :=
  let n := nat_of_ascii c in
  if ((65 <=? n) && (n <=? 90))%nat then ascii_of_nat (n + 32) else c.

Fixpoint lstrip (cs : list ascii) : list ascii :=
  match cs with
  | c :: cs' => if is_space c then lstrip cs' else cs
  | [] => []
  end.

Definition strip (cs : list ascii) : list ascii :=
  rev (lstrip (rev (lstrip cs))).

(** A run of digits, with single underscores allowed between digits.
    [acc] is the number read so far and [n] the count of its digits;
    [sep] tells that the last character was an underscore. *)
Fixpoint digits_from (acc : Z) (n : Z) (sep : bool) (cs : list ascii)
  : option (Z * Z * list ascii) :=
  match cs with
  | c :: cs' =>
      match digit_of c with
      | Some d => digits_from (10 * acc + d) (n + 1) false cs'
      | None =>
          if sep then None
          else if Ascii.eqb c "_" then
            if n =? 0 then None else digits_from acc n true cs'
          else Some (acc, n, cs)
      end
  | [] => if sep then None else Some (acc, n, [])
  end.

(** The exponent part [e[+-]digits], or nothing. *)
Definition exponent_of (cs : list ascii) : option Z :=
  match cs with
  | [] => Some 0
  | c :: cs' =>
      if Ascii.eqb (lower c) "e" then
        let '(neg, ds) :=
          match cs' with
          | s :: ds' =>
              if Ascii.eqb s "-" then (true, ds')
              else if Ascii.eqb s "+" then (false, ds')
              else (false, cs')
          | [] => (false, [])
          end in
        match digits_from 0 0 false ds with
        | Some (e, n, []) => if n =? 0 then None else Some (if neg then - e else e)
        | _ => None
        end
      else None
  end.

(** The decimal literal [m * 10^e] read from [cs]: digits, an optional
    fraction, an optional exponent; at least one digit is required. *)
Definition decimal_of (cs : list ascii) : option (Z * Z) :=
  match digits_from 0 0 false cs with
  | Some (i, ni, rest) =>
      match rest with
      | c :: rest' =>
          if Ascii.eqb c "." then
            match digits_from i 0 false rest' with
            | Some (m, nf, rest'') =>
                if (ni + nf =? 0) then None
                else match exponent_of rest'' with
                     | Some e => Some (m, e - nf)
                     | None => None
                     end
            | None => None
            end
          else if ni =? 0 then None
          else match exponent_of rest with
               | Some e => Some (i, e)
               | None => None
               end
      | [] => if ni =? 0 then None else Some (i, 0)
      end
  | None => None
  end.

(** The binary64 value nearest to [m * 10^e] (ties to even), for [m >= 0]. *)
Definition round_decimal (m e : Z) : float :=
  match m with
  | Z.pos p =>
      if 0 <=? e then SF2Prim (binary_normalize prec emax (m * 10 ^ e) 0 false)
      else SF2Prim (SFdiv prec emax (S754_finite false p 0)
                          (S754_finite false (Z.to_pos (10 ^ (- e))) 0))
  | _ => 0%float
  end.

Definition float_of_str (s : string) : option float :=
  let cs := strip (list_ascii_of_string s) in
  let '(neg, body) :=
    match cs with
    | c :: cs' =>
        if Ascii.eqb c "-" then (true, cs')
        else if Ascii.eqb c "+" then (false, cs')
        else (false, cs)
    | [] => (false, [])
    end in
  let signed (f : float) := if neg then (- f)%float else f in
  let word := string_of_list_ascii (map lower body) in
  if String.eqb word "inf" || String.eqb word "infinity" then Some (signed infinity)
  else if String.eqb word "nan" then Some nan
  else match decimal_of body with
       | Some (m, e) => Some (signed (round_decimal m e))
       | None => None
       end.

(** *** Writing a float *)

(** The integer nearest to [num / den] (ties to even), for [den > 0]. *)
Definition div_half_even (num den : Z) : Z :=
  let q := num / den in
  let r := num mod den in
  match 2 * r ?= den with
  | Lt => q
  | Gt => q + 1
  | Eq => if Z.even q then q else q + 1
  end.

(** A finite non-zero float as the exact fraction [num / den]. *)
Definition fraction_of (m : positive) (e : Z) : Z * Z :=
  if 0 <=? e then (Z.pos m * 2 ^ e, 1) else (Z.pos m, 2 ^ (- e)).

(** [format(x, '.Nf')] *)
Definition format_fixed (n : nat) (x : float) : string :=
  match Prim2SF x with
  | S754_nan => "nan"
  | S754_infinity s => if s then "-inf" else "inf"
  | S754_zero s =>
      (if s then "-" else "") +:+ "0" +:+
      (if (n =? 0)%nat then "" else "." +:+ zeros n)
  | S754_finite s m e =>
      let '(num, den) := fraction_of m e in
      let q := div_half_even (num * 10 ^ Z.of_nat n) den in
      let ds := str_of_Z q in
      let ds := zeros (S n - String.length ds) +:+ ds in
      let k := (String.length ds - n)%nat in
      (if s then "-" else "") +:+ substring 0 k ds +:+
      (if (n =? 0)%nat then "" else "." +:+ substring k n ds)
  end.

(** [repr]: the shortest decimal that reads back as the same float, and
    the closest to it among those. *)

(** The position of the decimal point: the [k] with
    [10^(k-1) <= num/den < 10^k]. *)
Definition decimal_point (num den : Z) : Z :=
  let k := (Z.log2 num - Z.log2 den) * 30103 / 100000 in
  let fix up (fuel : nat) (k : Z) :=
    match fuel with
    | O => k
    | S fuel' =>
        (* is num/den >= 10^k ? *)
        if (if 0 <=? k then den * 10 ^ k <=? num else den <=? num * 10 ^ (- k))
        then up fuel' (k + 1) else k
    end in
  let fix down (fuel : nat) (k : Z) :=
    match fuel with
    | O => k
    | S fuel' =>
        (* is num/den < 10^(k-1) ? *)
        if (if 0 <=? k - 1 then num <? den * 10 ^ (k - 1)
            else num * 10 ^ (1 - k) <? den)
        then down fuel' (k - 1) else k
    end in
  up 4%nat (down 4%nat k).

Fixpoint strip_zeros (fuel : nat) (q : Z) : Z :=
  match fuel with
  | O => q
  | S fuel' => if (q mod 10 =? 0) && negb (q =? 0) then strip_zeros fuel' (q / 10) else q
  end.

(** The [n]-digit candidates around [num/den]: the digits [q] (an integer
    below [10^n], or [10^n] itself) with [q * 10^(k-n)] nearest below and
    above, the nearer one first. *)
Definition candidates (num den k : Z) (n : Z) : list Z :=
  let sh := n - k in
  let '(a, b) := if 0 <=? sh then (num * 10 ^ sh, den) else (num, den * 10 ^ (- sh)) in
  let q := a / b in
  let r := a mod b in
  if r =? 0 then [q]
  else match 2 * r ?= b with
       | Lt => [q; q + 1]
       | Gt => [q + 1; q]
       | Eq => if Z.even q then [q; q + 1] else [q + 1; q]
       end.

Definition reads_back (x : float) (q : Z) (e : Z) : bool :=
  PrimFloat.eqb (round_decimal q e) x.

Fixpoint shortest (fuel : nat) (x : float) (num den k n : Z) : Z * Z :=
  match List.filter (λ q, reads_back x q (k - n)) (candidates num den k n) with
  | q :: _ => (q, n)
  | [] =>
      match fuel with
      | O => (div_half_even (num * 10 ^ (17 - k)) den, 17)
      | S fuel' => shortest fuel' x num den k (n + 1)
      end
  end.

Definition str_of_float (x : float) : string :=
  match Prim2SF x with
  | S754_nan => "nan"
  | S754_infinity s => if s then "-inf" else "inf"
  | S754_zero s => if s then "-0.0" else "0.0"
  | S754_finite s m e =>
      let '(num, den) := fraction_of m e in
      let k := decimal_point num den in
      let '(q, n) := shortest 16 (abs x) num den k 1 in
      (* q * 10^(k-n); q may be 10^n *)
      let k := if q =? 10 ^ n then k + 1 else k in
      let ds := str_of_Z (strip_zeros 20 q) in
      let nd := Z.of_nat (String.length ds) in
      let body :=
        if (k <=? -4) || (16 <? k) then
          let ex := k - 1 in
          substring 0 1 ds +:+
          (if nd =? 1 then "" else "." +:+ substring 1 (String.length ds - 1) ds) +:+
          "e" +:+ (if ex <? 0 then "-" else "+") +:+
          (if Z.abs ex <? 10 then "0" else "") +:+ str_of_Z (Z.abs ex)
        else if k <=? 0 then "0." +:+ zeros (Z.to_nat (- k)) +:+ ds
        else if nd <=? k then ds +:+ zeros (Z.to_nat (k - nd)) +:+ ".0"
        else substring 0 (Z.to_nat k) ds +:+ "." +:+
             substring (Z.to_nat k) (String.length ds - Z.to_nat k) ds
      in
      (if s then "-" else "") +:+ body
  end.

(** *** Summing floats *)

(** [sum] up to Python 3.11: additions from left to right, from [0]. *)
Definition sum_left (xs : list float) : float :=
  fold_left PrimFloat.add xs 0%float.

(** [sum] from Python 3.12 on: Neumaier's compensated summation, entered
    once the running total [0 + x1] is a float. *)
Fixpoint sum_compensated_from (total c : float) (xs : list float) : float :=
  match xs with
  | [] =>
      if negb (PrimFloat.eqb c 0) && negb (is_nan c) && negb (is_infinity c)
      then (total + c)%float else total
  | x :: xs' =>
      let t := (total + x)%float in
      let c' :=
        if PrimFloat.leb (abs x) (abs total)
        then (c + ((total - t) + x))%float
        else (c + ((x - t) + total))%float in
      sum_compensated_from t c' xs'
  end.

Definition sum_compensated (xs : list float) : float :=
  match xs with
  | [] => 0%float
  | x :: xs' => sum_compensated_from (0 + x)%float 0%float xs'
  end.

End CPythonImpl.

(** CPython up to 3.11. *)
Definition CPython : Builtins := {|
  float_of_str := CPythonImpl.float_of_str;
  str_of_float := CPythonImpl.str_of_float;
  format_fixed := CPythonImpl.format_fixed;
  float_sum := CPythonImpl.sum_left
|}.

(** CPython from 3.12 on, where [sum] compensates rounding errors. *)
Definition CPython312 : Builtins := {|
  float_of_str := CPythonImpl.float_of_str;
  str_of_float := CPythonImpl.str_of_float;
  format_fixed := CPythonImpl.format_fixed;
  float_sum := CPythonImpl.sum_compensated
|}.

(** ** invoice_generator.py *)

(** [os.path.join(a, b)] on POSIX. *)
Definition starts_with_sep (p : string) : bool :=
  match p with String c _ => Ascii.eqb c "/" | EmptyString => false end.

Fixpoint ends_with_sep (p : string) : bool :=
  match p with
  | EmptyString => false
  | String c EmptyString => Ascii.eqb c "/"
  | String _ p' => ends_with_sep p'
  end.

Definition path_join (a b : string) : string :=
  if starts_with_sep b then b
  else if String.eqb a "" || ends_with_sep a then a +:+ b
  else a +:+ "/" +:+ b.

(** The attributes [load_config] sets on the generator. *)
Record config : Type := mk_config {
  company_name : string;
  company_address : string;
  company_phone : string;
  company_email : string;
  logo_path : string;
  output_folder : string;
  currency_symbol : string;
  thank_you_note : string
}.

(** The configuration used when there is no [config.json]. *)
Definition default_config : config := {|
  company_name := "Your Company Name";
  company_address := "123 Business Street" +:+ String (ascii_of_nat 10) "City, State 12345";
  company_phone := "+1 (555) 123-4567";
  company_email := "info@yourcompany.com";
  logo_path := "";
  output_folder := "generated_invoices";
  currency_symbol := "$";
  thank_you_note := "Thank you for your business!"
|}.

(** An entry of an invoice's ['items'] list. *)
Record item : Type := mk_item {
  name : value;
  quantity : float;
  price : float
}.

(** The dictionary [read_excel_data] builds for one invoice. *)
Record invoice : Type := mk_invoice {
  customer_name : value;
  address : value;
  phone : value;
  invoice_number : string;
  date : value;
  tax_percent : float;
  discount_percent : float;
  items : list item
}.

(** [current_invoice['items'].append(item)] *)
Definition append_item (inv : invoice) (it : item) : invoice :=
  {| customer_name := customer_name inv; address := address inv;
     phone := phone inv; invoice_number := invoice_number inv;
     date := date inv; tax_percent := tax_percent inv;
     discount_percent := discount_percent inv;
     items := items inv ++ [it] |}.

(** [dict(zip(headers, row))]: later columns win over earlier ones of the same
    name.  Every lookup of the program is by a [str] key, which only a [str]
    header equals, so the other headers are left out. *)
Definition dict_zip (headers row : list value) : gmap string value :=
  foldl (λ m hv, match hv.1 with VStr k => <[k := hv.2]> m | _ => m end)
        ∅ (zip headers row).

(** [row_data.get(key, dflt)] *)
Definition get (row_data : gmap string value) (key : string) (dflt : value) : value :=
  default dflt (row_data !! key).

Section Reader.
Context `{Builtins}.

(** [float(row_data.get(key, 0) or 0)] *)
Definition numeric_field (row_data : gmap string value) (key : string) : result float :=
  py_float (py_or (get row_data key (VInt 0)) (VInt 0)).

(** The dictionary of lines 116-125; [now] is what [datetime.now()] returns
    while it is built. *)
Definition new_invoice (now : datetime) (row_data : gmap string value) : result invoice :=
  let customer_name := get row_data "Customer Name" (VStr "") in
  let address := get row_data "Address" (VStr "") in
  let phone := get row_data "Phone Number" (VStr "") in
  let invoice_number := py_str (get row_data "Invoice Number" (VStr "")) in
  let date := get row_data "Date" (VStr (strftime_ymd now)) in
  tax_percent ← numeric_field row_data "Tax %";
  discount_percent ← numeric_field row_data "Discount %";
  Ok {| customer_name := customer_name; address := address; phone := phone;
        invoice_number := invoice_number; date := date;
        tax_percent := tax_percent; discount_percent := discount_percent;
        items := [] |}.

(** The dictionary of lines 129-133. *)
Definition new_item (row_data : gmap string value) : result item :=
  let name := get row_data "Item Name" (VStr "") in
  quantity ← numeric_field row_data "Quantity";
  price ← numeric_field row_data "Price";
  Ok {| name := name; quantity := quantity; price := price |}.

(** The two variables the loop of [read_excel_data] updates. *)
Record reader : Type := mk_reader {
  invoices : list invoice;
  current_invoice : option invoice
}.

(** [if current_invoice: invoices.append(current_invoice)].  The invoice is a
    dictionary with eight keys, hence true whenever it is not [None]. *)
Definition save_current (st : reader) : list invoice :=
  match current_invoice st with
  | Some inv => invoices st ++ [inv]
  | None => invoices st
  end.

(** One turn of the loop (lines 107-134) on an already zipped row. *)
Definition read_row (now : datetime) (row_data : gmap string value) (st : reader)
  : result reader :=
  st ← (if truthy (get row_data "Invoice Number" VNone) then
          inv ← new_invoice now row_data;
          Ok {| invoices := save_current st; current_invoice := Some inv |}
        else Ok st);
  match current_invoice st with
  | Some inv =>
      if truthy (get row_data "Item Name" VNone) then
        it ← new_item row_data;
        Ok {| invoices := invoices st; current_invoice := Some (append_item inv it) |}
      else Ok st
  | None => Ok st
  end.

(** The loop over [enumerate(sheet.iter_rows(min_row=2, ...), start=2)];
    [now_at row_idx] is the clock while the row [row_idx] is read. *)
Fixpoint read_rows (now_at : nat → datetime) (headers : list value)
    (row_idx : nat) (rows : list (list value)) (st : reader) : result reader :=
  match rows with
  | [] => Ok st
  | row :: rows' =>
      st ← read_row (now_at row_idx) (dict_zip headers row) st;
      read_rows now_at headers (S row_idx) rows' st
  end.

(** [read_excel_data], from the first row of the sheet and the rows after it. *)
Definition read_excel_data (now_at : nat → datetime) (headers : list value)
    (rows : list (list value)) : result (list invoice) :=
  st ← read_rows now_at headers 2 rows
         {| invoices := []; current_invoice := None |};
  Ok (save_current st).

(** The dictionary [calculate_totals] returns. *)
Record totals : Type := mk_totals {
  subtotal : float;
  discount_amount : float;
  subtotal_after_discount : float;
  tax_amount : float;
  total : float
}.

(** [calculate_totals].  For an empty list [sum] returns the integer [0],
    which the arithmetic and the formatting below treat as the float [0.0]. *)
Definition calculate_totals (items : list item) (tax_percent discount_percent : float)
  : totals :=
  let subtotal := float_sum (map (λ it, quantity it * price it)%float items) in
  let discount_amount := (subtotal * (discount_percent / 100))%float in
  let subtotal_after_discount := (subtotal - discount_amount)%float in
  let tax_amount := (subtotal_after_discount * (tax_percent / 100))%float in
  let total := (subtotal_after_discount + tax_amount)%float in
  {| subtotal := subtotal; discount_amount := discount_amount;
     subtotal_after_discount := subtotal_after_discount;
     tax_amount := tax_amount; total := total |}.

End Reader.

(** *** Rendering *)

(** The reportlab flowables of a story.  Page geometry, fonts, colours and
    table styles are left out: they do not change which texts are laid out.
    A paragraph carries its text and the name of its style, a table its
    cells. *)
Inductive flowable : Type :=
  | Image (path : string)
  | Spacer
  | Paragraph (text : string) (style : string)
  | Table (data : list (list value)).

(** What is on disk: the documents built so far and any other file. *)
Inductive file : Type :=
  | Pdf (story : list flowable)
  | OtherFile.

(** [os.path.exists(path)] *)
Definition path_exists (fs : gmap string file) (path : string) : bool :=
  bool_decide (is_Some (fs !! path)).

Section Renderer.
Context `{Builtins}.

(** [invoice_date] of lines 197-203; [now] is the clock at line 203. *)
Definition invoice_date (now : datetime) (date : value) : string :=
  match date with
  | VDateTime d => strftime_ymd d
  | _ => if truthy date then py_str date else strftime_ymd now
  end.

(** [items_data] of lines 234-243. *)
Definition items_data (cfg : config) (items : list item) : list (list value) :=
  [VStr "Item"; VStr "Quantity"; VStr "Price"; VStr "Total"] ::
  map (λ it,
         let line_total := (quantity it * price it)%float in
         [ name it;
           VStr (format_fixed 2 (quantity it));
           VStr (currency_symbol cfg +:+ format_fixed 2 (price it));
           VStr (currency_symbol cfg +:+ format_fixed 2 line_total) ])
      items.

(** The labels of the totals table. *)
Definition discount_label (discount_percent : float) : string :=
  "Discount (" +:+ format_fixed 1 discount_percent +:+ "%):".

Definition tax_label (tax_percent : float) : string :=
  "Tax (" +:+ format_fixed 1 tax_percent +:+ "%):".

(** [totals_data] of lines 277-301: rows of a label and an amount. *)
Definition totals_data (cfg : config) (inv : invoice) (t : totals)
  : list (string * string) :=
  [("Subtotal:", currency_symbol cfg +:+ format_fixed 2 (subtotal t))] ++
  (if (0 <? discount_percent inv)%float then
     [ (discount_label (discount_percent inv),
        "-" +:+ currency_symbol cfg +:+ format_fixed 2 (discount_amount t));
       ("Subtotal after Discount:",
        currency_symbol cfg +:+ format_fixed 2 (subtotal_after_discount t)) ]
   else []) ++
  (if (0 <? tax_percent inv)%float then
     [ (tax_label (tax_percent inv),
        currency_symbol cfg +:+ format_fixed 2 (tax_amount t)) ]
   else []) ++
  [("Total Amount Due:", currency_symbol cfg +:+ format_fixed 2 (total t))].

(** The totals block of an invoice, as [generate_pdf] computes it. *)
Definition totals_block (cfg : config) (inv : invoice) : list (string * string) :=
  totals_data cfg inv
    (calculate_totals (items inv) (tax_percent inv) (discount_percent inv)).

(** The file [generate_pdf] writes (line 162). *)
Definition invoice_filename (cfg : config) (invoice_number : string) : string :=
  path_join (output_folder cfg) ("Invoice_" +:+ invoice_number +:+ ".pdf").

(** The story of lines 173-342; [now_date] and [now_footer] are the clock at
    lines 203 and 340. *)
Definition story_of (cfg : config) (fs : gmap string file)
    (now_date now_footer : datetime) (inv : invoice) : list flowable :=
  (if negb (String.eqb (logo_path cfg) "") && path_exists fs (logo_path cfg)
   then [Image (logo_path cfg); Spacer] else []) ++
  [ Paragraph (company_name cfg) "CompanyName";
    Paragraph
      (company_address cfg +:+ "<br/>" +:+
       (if String.eqb (company_phone cfg) "" then ""
        else "Phone: " +:+ company_phone cfg +:+ "<br/>") +:+
       (if String.eqb (company_email cfg) "" then ""
        else "Email: " +:+ company_email cfg))
      "CompanyInfo";
    Spacer;
    Paragraph "INVOICE" "InvoiceTitle";
    Table [[ VStr "Invoice Number:"; VStr (invoice_number inv);
             VStr "Date:"; VStr (invoice_date now_date (date inv)) ]];
    Spacer;
    Paragraph "Bill To:" "SectionHeader";
    Paragraph
      ("<b>" +:+ py_str (customer_name inv) +:+ "</b><br/>" +:+
       (if truthy (address inv) then py_str (address inv) +:+ "<br/>" else "") +:+
       (if truthy (phone inv) then "Phone: " +:+ py_str (phone inv) else ""))
      "Normal";
    Spacer;
    Table (items_data cfg (items inv));
    Spacer;
    Table (map (λ row, [VStr row.1; VStr row.2]) (totals_block cfg inv));
    Spacer;
    Paragraph (thank_you_note cfg) "ThankYou";
    Paragraph
      ("This invoice was generated automatically on " +:+ strftime_ymd_hms now_footer)
      "Footer" ].

(** What lies outside the program: the clock, and whether reportlab and the
    operating system get a document built ([Some e]: building raises [e] and
    leaves no document). *)
Record world : Type := mk_world {
  now_read : nat → datetime;
  now_render : nat → datetime * datetime;
  build_error : string → list flowable → option exn
}.

(** [generate_pdf]: the file name returned, or the exception raised, and the
    files on disk afterwards.  [idx] is the position of the invoice in the
    batch, which selects the clock readings. *)
Definition generate_pdf (w : world) (cfg : config) (idx : nat) (inv : invoice)
    (fs : gmap string file) : result string * gmap string file :=
  let filename := invoice_filename cfg (invoice_number inv) in
  let story := story_of cfg fs (now_render w idx).1 (now_render w idx).2 inv in
  match build_error w filename story with
  | Some e => (Raise e, fs)
  | None => (Ok filename, <[filename := Pdf story]> fs)
  end.

(** The loop of [process_excel_file] (lines 355-360): no exception is
    caught, so the first one ends the loop. *)
Fixpoint generate_all (w : world) (cfg : config) (idx : nat) (invs : list invoice)
    (generated_files : list string) (fs : gmap string file)
  : result (list string) * gmap string file :=
  match invs with
  | [] => (Ok generated_files, fs)
  | inv :: invs' =>
      match generate_pdf w cfg idx inv fs with
      | (Ok filename, fs') =>
          generate_all w cfg (S idx) invs' (generated_files ++ [filename]) fs'
      | (Raise e, fs') => (Raise e, fs')
      end
  end.

(** [process_excel_file] on a workbook whose active sheet has the first row
    [headers] and the further rows [rows].  Console output is not modelled. *)
Definition process_excel_file (w : world) (cfg : config)
    (headers : list value) (rows : list (list value)) (fs : gmap string file)
  : result (list string) * gmap string file :=
  match read_excel_data (now_read w) headers rows with
  | Ok invs => generate_all w cfg 1 invs [] fs
  | Raise e => (Raise e, fs)
  end.

End Renderer.

(** ** web_app.py *)

(** What [download_invoice] answers. *)
Inductive response : Type :=
  | SendFile (path : string)
  | NotFound.

(** The path [download_invoice] looks for (line 88). *)
Definition download_path (invoice_number : string) : string :=
  path_join "generated_invoices" (invoice_number +:+ ".pdf").

(** [download_invoice]: the file is sent when it exists; otherwise the
    request is redirected with the message "Invoice not found". *)
Definition download_invoice (fs : gmap string file) (invoice_number : string) : response :=
  let filepath := download_path invoice_number in
  if path_exists fs filepath then SendFile filepath else NotFound.

(** ** The grouping of rows into invoices *)

(** The rows of the sheet, zipped and numbered as [read_rows] meets them. *)
Fixpoint numbered (headers : list value) (row_idx : nat) (rows : list (list value))
  : list (nat * gmap string value) :=
  match rows with
  | [] => []
  | row :: rows' => (row_idx, dict_zip headers row) :: numbered headers (S row_idx) rows'
  end.

(** The rows up to the next row that starts an invoice, [starts] telling
    which rows do. *)
Fixpoint region (starts : gmap string value → bool) (l : list (nat * gmap string value))
  : list (nat * gmap string value) :=
  match l with
  | [] => []
  | x :: l' => if starts x.2 then [] else x :: region starts l'
  end.

(** The table cut at the rows that start an invoice: each starting row with
    the rows that follow it up to the next starting row or the end.  Rows
    before the first starting row belong to no region. *)
Fixpoint regions (starts : gmap string value → bool) (l : list (nat * gmap string value))
  : list ((nat * gmap string value) * list (nat * gmap string value)) :=
  match l with
  | [] => []
  | x :: l' =>
      if starts x.2 then (x, region starts l') :: regions starts l'
      else regions starts l'
  end.

(** The rows of a region, the starting row first. *)
Definition region_rows (reg : (nat * gmap string value) * list (nat * gmap string value))
  : list (nat * gmap string value) := reg.1 :: reg.2.

(** [f] on every element from left to right, up to the first exception. *)
Fixpoint map_result {A B} (f : A → result B) (l : list A) : result (list B) :=
  match l with
  | [] => Ok []
  | x :: l' => y ← f x; ys ← map_result f l'; Ok (y :: ys)
  end.

(** How the program tells a row that starts an invoice, and a row with an item. *)
Definition starts_invoice (row_data : gmap string value) : bool :=
  truthy (get row_data "Invoice Number" VNone).

Definition carries_item (row_data : gmap string value) : bool :=
  truthy (get row_data "Item Name" VNone).

(** [inv] with [its] appended to its items. *)
Definition add_items (inv : invoice) (its : list item) : invoice :=
  {| customer_name := customer_name inv; address := address inv;
     phone := phone inv; invoice_number := invoice_number inv;
     date := date inv; tax_percent := tax_percent inv;
     discount_percent := discount_percent inv;
     items := items inv ++ its |}.

Section Grouping.
Context `{Builtins}.

(** The items of the rows of [l] that carry one, in the order of the rows. *)
Definition collect_items (l : list (nat * gmap string value)) : result (list item) :=
  map_result (λ x, new_item x.2) (List.filter (λ x, carries_item x.2) l).

(** The invoice of one region: the header fields of its starting row, and the
    items of its rows. *)
Definition invoice_of_region (now_at : nat → datetime)
    (reg : (nat * gmap string value) * list (nat * gmap string value)) : result invoice :=
  inv ← new_invoice (now_at reg.1.1) reg.1.2;
  its ← collect_items (region_rows reg);
  Ok (add_items inv its).

(** What the loop has saved once it ends, with the invoice still open. *)
Definition finish (r : result reader) : result (list invoice) :=
  st ← r; Ok (save_current st).

(** What the loop saves from the rows [l] when it starts in the state [st]. *)
Definition continue_from (now_at : nat → datetime) (st : reader)
    (l : list (nat * gmap string value)) : result (list invoice) :=
  match current_invoice st with
  | Some inv =>
      its ← collect_items (region starts_invoice l);
      rest ← map_result (invoice_of_region now_at) (regions starts_invoice l);
      Ok (invoices st ++ add_items inv its :: rest)
  | None =>
      rest ← map_result (invoice_of_region now_at) (regions starts_invoice l);
      Ok (invoices st ++ rest)
  end.

End Grouping.

(** ** The words of the specification *)

(** A field is empty when its cell is empty or holds the empty text. *)
Definition is_empty (v : value) : bool :=
  match v with
  | VNone => true
  | VStr s => String.eqb s ""
  | _ => false
  end.

(** The field of a row under a column; a column that the sheet lacks reads as
    an empty cell. *)
Definition field (row_data : gmap string value) (column : string) : value :=
  get row_data column VNone.

Definition has_invoice_number (row_data : gmap string value) : bool :=
  negb (is_empty (field row_data "Invoice Number")).

Definition has_item_name (row_data : gmap string value) : bool :=
  negb (is_empty (field row_data "Item Name")).

(** The numeric fields of a row. *)
Definition numeric_columns : list string := ["Quantity"; "Price"; "Tax %"; "Discount %"].

(** A number equal to zero, or [False]: a cell that is not empty and still
    counts as false in a condition. *)
Definition zero_like (v : value) : bool :=
  match v with
  | VBool b => negb b
  | VInt z => z =? 0
  | VFloat f => PrimFloat.eqb f 0
  | _ => false
  end.

(** No cell of [column] holds a zero or [False]. *)
Definition no_zero_like (column : string) (rows : list (gmap string value)) : Prop :=
  Forall (λ row_data, zero_like (field row_data column) = false) rows.

(** ** Sample sheets, invoices and worlds *)

Definition sheet_headers : list value :=
  VStr <$> [ "Invoice Number"; "Customer Name"; "Address"; "Phone Number"; "Date";
             "Item Name"; "Quantity"; "Price"; "Tax %"; "Discount %" ].

Definition sample_now : datetime := mk_datetime 2024 3 15 10 30 0 0.

(** An invoice of two rows, the second a continuation row. *)
Definition row_widget : list value :=
  [ VStr "INV-001"; VStr "John Smith"; VStr "123 Main St"; VStr "555-0100";
    VStr "2024-01-15"; VStr "Widget"; VInt 2; VInt 100; VInt 10; VInt 10 ].

Definition row_gadget : list value :=
  [ VNone; VNone; VNone; VNone; VNone; VStr "Gadget"; VInt 1; VInt 50; VNone; VNone ].

(** A row that starts an invoice and has no item. *)
Definition row_bare : list value :=
  [ VStr "INV-002"; VStr "Sarah Johnson"; VNone; VNone; VNone;
    VNone; VNone; VNone; VNone; VNone ].

(** An item row with no invoice number, and a quantity that is not a number. *)
Definition row_orphan : list value :=
  [ VNone; VNone; VNone; VNone; VNone; VStr "Orphan"; VStr "three"; VInt 7; VNone; VNone ].

(** A row whose invoice number is the number zero. *)
Definition row_zero : list value :=
  [ VInt 0; VStr "Mike Davis"; VNone; VNone; VNone;
    VStr "Widget"; VInt 1; VInt 5; VNone; VNone ].

(** A continuation row whose item name is the number zero. *)
Definition row_zero_name : list value :=
  [ VNone; VNone; VNone; VNone; VNone; VInt 0; VInt 4; VInt 25; VNone; VNone ].

Definition invoice_widget : invoice := {|
  customer_name := VStr "John Smith";
  address := VStr "123 Main St";
  phone := VStr "555-0100";
  invoice_number := "INV-001";
  date := VStr "2024-01-15";
  tax_percent := 10;
  discount_percent := 10;
  items := [ {| name := VStr "Widget"; quantity := 2; price := 100 |} ]
|}.

Definition invoice_bare : invoice := {|
  customer_name := VStr "Sarah Johnson";
  address := VNone;
  phone := VNone;
  invoice_number := "INV-002";
  date := VNone;
  tax_percent := 0;
  discount_percent := 0;
  items := []
|}.

(** A row whose quantity is a text that is not a number. *)
Definition row_bad_quantity : list value :=
  [ VStr "INV-003"; VStr "Tech Solutions Inc"; VNone; VNone; VStr "2024-02-01";
    VStr "Widget"; VStr "abc"; VInt 5; VNone; VNone ].

(** The items of the specification's example. *)
Definition example_items : list item :=
  [ {| name := VStr "A"; quantity := 2; price := 100 |};
    {| name := VStr "B"; quantity := 1; price := 50 |} ].

(** A batch of three invoices, and a world where the second cannot be
    written. *)
Definition row_third : list value :=
  [ VStr "INV-005"; VStr "Emily Brown"; VStr "654 Pine Road"; VNone; VStr "2024-02-10";
    VStr "Service"; VFloat 1.5; VInt 80; VInt 0; VInt 0 ].

Definition batch_rows : list (list value) :=
  [row_widget; row_gadget; row_bare; row_third].

Definition from_ok {A} (r : result (list A)) : list A :=
  match r with Ok l => l | Raise _ => [] end.

Definition batch_invoices : list invoice :=
  from_ok (@read_excel_data CPython (λ _, sample_now) sheet_headers batch_rows).

Definition failing_world : world := {|
  now_read := λ _, sample_now;
  now_render := λ _, (sample_now, sample_now);
  build_error := λ filename _,
    if String.eqb filename "generated_invoices/Invoice_INV-002.pdf"
    then Some OSError else None
|}.

(** ** web_app.py: uploads, and the rest of invoice_generator.py *)

(** *** Uploaded file names *)

(** [c in s] for a character [c]. *)
Fixpoint contains_char (c : ascii) (s : string) : bool :=
  match s with
  | EmptyString => false
  | String x s' => Ascii.eqb x c || contains_char c s'
  end.

(** [s.rsplit(sep, 1)]: the text before and after the last [sep], or [s]
    alone when it has none. *)
Fixpoint rsplit1 (sep : ascii) (s : string) : list string :=
  match s with
  | EmptyString => [EmptyString]
  | String c s' =>
      match rsplit1 sep s' with
      | [a; b] => [String c a; b]
      | _ => if Ascii.eqb c sep then [EmptyString; s'] else [s]
      end
  end.

(** [s.lower()], on ASCII text. *)
Fixpoint str_lower (s : string) : string :=
  match s with
  | EmptyString => EmptyString
  | String c s' => String (CPythonImpl.lower c) (str_lower s')
  end.

(** [app.config['ALLOWED_EXTENSIONS']] *)
Definition ALLOWED_EXTENSIONS : list string := ["xlsx"; "xls"].

(** [allowed_file].  The index [[1]] is only evaluated behind the test
    ['.' in filename], where the split has two parts. *)
Definition allowed_file (filename : string) : bool :=
  contains_char "." filename &&
  match rsplit1 "." filename !! 1%nat with
  | Some ext => bool_decide (str_lower ext ∈ ALLOWED_EXTENSIONS)
  | None => false
  end.

(** *** The columns of a row *)

(** The cells of a row that stand under a text header, with that header. *)
Definition columns (headers row : list value) : list (string * value) :=
  omap (λ hv, match hv.1 with VStr k => Some (k, hv.2) | _ => None end)
       (zip headers row).

(** *** load_config *)

(** The dictionary of lines 33-42, used when there is no [config.json]. *)
Definition default_json : gmap string string :=
  list_to_map
    [ ("company_name", "Your Company Name");
      ("company_address",
       "123 Business Street" +:+ String (ascii_of_nat 10) "City, State 12345");
      ("company_phone", "+1 (555) 123-4567");
      ("company_email", "info@yourcompany.com");
      ("logo_path", "");
      ("output_folder", "generated_invoices");
      ("currency_symbol", "$");
      ("thank_you_note", "Thank you for your business!") ].

(** The attributes read with [config.get(key, default)] (lines 44-51). *)
Definition config_of (json : gmap string string) : config := {|
  company_name := default "Your Company Name" (json !! "company_name");
  company_address := default "" (json !! "company_address");
  company_phone := default "" (json !! "company_phone");
  company_email := default "" (json !! "company_email");
  logo_path := default "" (json !! "logo_path");
  output_folder := default "generated_invoices" (json !! "output_folder");
  currency_symbol := default "$" (json !! "currency_symbol");
  thank_you_note := default "Thank you for your business!" (json !! "thank_you_note")
|}.

(** [load_config].  [config_file] is what lines 29-30 make of the file when
    it exists: an object whose values are texts, or the exception raised on
    the way;
    [makedirs_error] tells whether [os.makedirs] raises.  A folder is an
    entry of the disk like any other. *)
Definition load_config (makedirs_error : string → option exn)
    (config_file : option (result (gmap string string))) (fs : gmap string file)
  : result config * gmap string file :=
  match match config_file with Some json => json | None => Ok default_json end with
  | Raise e => (Raise e, fs)
  | Ok json =>
      let cfg := config_of json in
      if path_exists fs (output_folder cfg) then (Ok cfg, fs)
      else match makedirs_error (output_folder cfg) with
           | Some e => (Raise e, fs)
           | None => (Ok cfg, <[output_folder cfg := OtherFile]> fs)
           end
  end.

(** *** upload_file *)

(** What [upload_file] returns: the message it flashes with its category, and
    the page. *)
Inductive page : Type :=
  | IndexRedirect
  | SuccessTemplate (count : nat).

Record upload_response : Type := mk_upload_response {
  flashed : string * string;
  shown : page
}.

(** The part [file] of a request: its name, and what [load_workbook] makes of
    its content (the first row and the further rows of the active sheet, or
    an exception). *)
Record upload : Type := mk_upload {
  upload_name : string;
  upload_book : result (list value * list (list value))
}.

(** What lies outside [upload_file]: werkzeug's [secure_filename], whether
    saving the upload or creating the output folder raises, the content of
    [config.json] when there is one, and the world of the generator. *)
Record server : Type := mk_server {
  secure_filename : string → string;
  save_error : string → option exn;
  makedirs_error : string → option exn;
  config_json : option (result (gmap string string));
  generator_world : world
}.

Definition error_response : upload_response := {|
  flashed := ("Error generating invoices. The error has been logged for investigation.",
              "error");
  shown := IndexRedirect
|}.

Definition no_file_response : upload_response :=
  {| flashed := ("No file selected", "error"); shown := IndexRedirect |}.

Definition invalid_type_response : upload_response := {|
  flashed := ("Invalid file type. Please upload an Excel file (.xlsx or .xls)", "error");
  shown := IndexRedirect
|}.

Definition success_response (count : nat) : upload_response := {|
  flashed := ("Success! Generated " +:+ str_of_Z (Z.of_nat count) +:+
              " invoices in the generated_invoices folder.", "success");
  shown := SuccessTemplate count
|}.

Section Upload.
Context `{Builtins}.

(** [process_excel_file] on a workbook still to be loaded: [load_workbook]
    is the first call of [read_excel_data]. *)
Definition process_workbook (w : world) (cfg : config)
    (book : result (list value * list (list value))) (fs : gmap string file)
  : result (list string) * gmap string file :=
  match book with
  | Ok (headers, rows) => process_excel_file w cfg headers rows fs
  | Raise e => (Raise e, fs)
  end.

(** [upload_file]; [request] is [None] when the request has no part named
    [file].  The clause [except Exception] catches every exception raised
    after the upload is saved; the entry written to the log is not modelled. *)
Definition upload_file (srv : server) (request : option upload) (fs : gmap string file)
  : result upload_response * gmap string file :=
  match request with
  | None => (Ok no_file_response, fs)
  | Some file =>
      if String.eqb (upload_name file) "" then (Ok no_file_response, fs)
      else if allowed_file (upload_name file) then
        let filename := secure_filename srv (upload_name file) in
        let filepath := path_join "uploads" filename in
        match save_error srv filepath with
        | Some e => (Raise e, fs)
        | None =>
            let fs := <[filepath := OtherFile]> fs in
            match load_config (makedirs_error srv) (config_json srv) fs with
            | (Ok cfg, fs) =>
                match process_workbook (generator_world srv) cfg (upload_book file) fs with
                | (Ok generated_files, fs) =>
                    (Ok (success_response (length generated_files)), fs)
                | (Raise _, fs) => (Ok error_response, fs)
                end
            | (Raise _, fs) => (Ok error_response, fs)
            end
        end
      else (Ok invalid_type_response, fs)
  end.

End Upload.

(** ** create_sample_data.py *)
















(** ** Further samples *)

(** A row with a header that occurs twice. *)
Definition twice_headers : list value := [VStr "Price"; VStr "Item Name"; VStr "Price"].
Definition twice_row : list value := [VInt 1; VStr "Widget"; VInt 2].

(** The sample sheet with its first two columns exchanged. *)
Definition swap_first_two {A} (l : list A) : list A :=
  match l with
  | a :: b :: rest => b :: a :: rest
  | _ => l
  end.

(** The headers of a sheet whose first column is named otherwise. *)
Definition renamed_headers : list value :=
  VStr <$> [ "Invoice No"; "Customer Name"; "Address"; "Phone Number"; "Date";
             "Item Name"; "Quantity"; "Price"; "Tax %"; "Discount %" ].

(** The continuation row [row_gadget] with a customer and a tax filled in. *)
Definition row_gadget_filled : list value :=
  [ VNone; VStr "Someone Else"; VNone; VNone; VNone;
    VStr "Gadget"; VInt 1; VInt 50; VStr "n/a"; VNone ].

(** A world in which every document can be built. *)
Definition quiet_world : world := {|
  now_read := λ _, sample_now;
  now_render := λ _, (sample_now, sample_now);
  build_error := λ _ _, None
|}.

(** A second invoice with the number of [invoice_widget]. *)
Definition invoice_widget_again : invoice := {|
  customer_name := VStr "Sarah Johnson";
  address := VNone;
  phone := VNone;
  invoice_number := "INV-001";
  date := VStr "2024-03-01";
  tax_percent := 0;
  discount_percent := 0;
  items := [ {| name := VStr "Gadget"; quantity := 1; price := 50 |} ]
|}.

(** Servers: one on which everything works, one on which the uploads cannot
    be saved, one whose second document cannot be written.  Uploaded names
    are kept as they are. *)
Definition quiet_server : server := {|
  secure_filename := λ name, name;
  save_error := λ _, None;
  makedirs_error := λ _, None;
  config_json := None;
  generator_world := quiet_world
|}.


Definition failing_server : server := {|
  secure_filename := λ name, name;
  save_error := λ _, None;
  makedirs_error := λ _, None;
  config_json := None;
  generator_world := failing_world
|}.

(** The response of an upload that did not raise. *)
Definition from_ok_response (r : result upload_response) : upload_response :=
  match r with Ok resp => resp | Raise _ => no_file_response end.

Definition batch_upload : upload :=
  {| upload_name := "March.XLSX"; upload_book := Ok (sheet_headers, batch_rows) |}.


(** ** The reader as a grouping of regions *)

Section GroupingFacts.
Context `{Builtins}.

Lemma add_items_nil inv : add_items inv [] = inv.
Proof. destruct inv. unfold add_items. simpl. by rewrite app_nil_r. Qed.

Lemma add_items_append inv it its :
  add_items (append_item inv it) its = add_items inv (it :: its).
Proof. unfold add_items, append_item. simpl. by rewrite <- app_assoc. Qed.

Lemma collect_items_cons x l :
  collect_items (x :: l) =
  if carries_item x.2
  then it ← new_item x.2; its ← collect_items l; Ok (it :: its)
  else collect_items l.
Proof. unfold collect_items. simpl. by destruct (carries_item x.2). Qed.

Lemma invoice_of_region_unfold now_at x cont :
  invoice_of_region now_at (x, cont) =
  inv ← new_invoice (now_at x.1) x.2;
  its ← collect_items (x :: cont);
  Ok (add_items inv its).
Proof. reflexivity. Qed.

(** The loop of [read_excel_data], from any state: the open invoice takes the
    items of the rows up to the next starting row, and every region after
    that becomes one invoice. *)
Lemma read_rows_continue now_at headers rows : ∀ idx st,
  finish (read_rows now_at headers idx rows st) =
  continue_from now_at st (numbered headers idx rows).
Proof.
  induction rows as [|row rows IH]; intros idx st.
  - unfold continue_from, finish, save_current. simpl.
    destruct (current_invoice st) as [inv|]; simpl.
    + by rewrite add_items_nil.
    + by rewrite app_nil_r.
  - simpl read_rows. simpl numbered.
    set (rd := dict_zip headers row).
    set (l := numbered headers (S idx) rows).
    assert (Hstep : finish (st' ← read_row (now_at idx) rd st;
                            read_rows now_at headers (S idx) rows st') =
                    st' ← read_row (now_at idx) rd st; continue_from now_at st' l).
    { destruct (read_row (now_at idx) rd st) as [st'|e]; simpl; [apply IH | done]. }
    rewrite Hstep. clear Hstep IH.
    unfold read_row, continue_from at 2. simpl regions. simpl region.
    fold (starts_invoice rd). fold (carries_item rd).
    destruct (starts_invoice rd) eqn:Hs.
    + (* the row starts an invoice *)
      assert (Hrhs :
        match current_invoice st with
        | Some inv =>
            its ← collect_items [];
            rest ← map_result (invoice_of_region now_at)
                     (((idx, rd), region starts_invoice l) :: regions starts_invoice l);
            Ok (invoices st ++ add_items inv its :: rest)
        | None =>
            rest ← map_result (invoice_of_region now_at)
                     (((idx, rd), region starts_invoice l) :: regions starts_invoice l);
            Ok (invoices st ++ rest)
        end =
        (rest ← map_result (invoice_of_region now_at)
                  (((idx, rd), region starts_invoice l) :: regions starts_invoice l);
         Ok (save_current st ++ rest))).
      { destruct (current_invoice st) as [inv|] eqn:Hc; simpl;
          destruct (invoice_of_region now_at (idx, rd, region starts_invoice l)); simpl; try done;
          destruct (map_result (invoice_of_region now_at) (regions starts_invoice l)); simpl; try done.
        - unfold save_current. rewrite Hc, add_items_nil. by rewrite <- app_assoc.
        - unfold save_current. by rewrite Hc. }
      rewrite Hrhs. clear Hrhs.
      simpl map_result. rewrite invoice_of_region_unfold.
      rewrite collect_items_cons. simpl.
      destruct (new_invoice (now_at idx) rd) as [inv0|e]; simpl; [|done].
      destruct (carries_item rd) eqn:Hi; simpl.
      * destruct (new_item rd) as [it|e]; simpl; [|done].
        unfold continue_from. simpl.
        destruct (collect_items (region starts_invoice l)) as [its|e]; simpl; [|done].
        destruct (map_result (invoice_of_region now_at) (regions starts_invoice l));
          simpl; [|done].
        by rewrite add_items_append.
      * unfold continue_from. simpl.
        destruct (collect_items (region starts_invoice l)) as [its|e]; simpl; [|done].
        by destruct (map_result (invoice_of_region now_at) (regions starts_invoice l)).
    + (* a continuation row *)
      simpl. destruct (current_invoice st) as [inv|] eqn:Hc.
      * rewrite collect_items_cons. simpl.
        destruct (carries_item rd) eqn:Hi; simpl.
        -- destruct (new_item rd) as [it|e]; simpl; [|done].
           unfold continue_from. simpl.
           destruct (collect_items (region starts_invoice l)) as [its|e]; simpl; [|done].
           destruct (map_result (invoice_of_region now_at) (regions starts_invoice l));
             simpl; [|done].
           by rewrite add_items_append.
        -- unfold continue_from. by rewrite Hc.
      * unfold continue_from. simpl. by rewrite Hc.
Qed.

(** [read_excel_data] builds one invoice per region, in the order of the
    regions, and raises what the first failing row raises. *)
Lemma read_excel_data_regions now_at headers rows :
  read_excel_data now_at headers rows =
  map_result (invoice_of_region now_at) (regions starts_invoice (numbered headers 2 rows)).
Proof.
  unfold read_excel_data.
  change (finish (read_rows now_at headers 2 rows
                    {| invoices := []; current_invoice := None |}) =
          map_result (invoice_of_region now_at)
            (regions starts_invoice (numbered headers 2 rows))).
  rewrite read_rows_continue. unfold continue_from. simpl.
  by destruct (map_result _ _).
Qed.

End GroupingFacts.

(** ** Facts about the pieces *)

Lemma truthy_empty_zero v : truthy v = negb (is_empty v) && negb (zero_like v).
Proof.
  destruct v as [|b|z|f|s|d]; simpl; try done.
  - by destruct b.
  - by rewrite andb_true_r.
Qed.

Lemma is_empty_not_truthy v : is_empty v = true → truthy v = false.
Proof. intros Hv. by rewrite truthy_empty_zero, Hv. Qed.

Lemma starts_invoice_spec rd :
  zero_like (field rd "Invoice Number") = false →
  starts_invoice rd = has_invoice_number rd.
Proof.
  intros Hz. unfold starts_invoice, has_invoice_number.
  fold (field rd "Invoice Number"). by rewrite truthy_empty_zero, Hz, andb_true_r.
Qed.

Lemma carries_item_spec rd :
  zero_like (field rd "Item Name") = false →
  carries_item rd = has_item_name rd.
Proof.
  intros Hz. unfold carries_item, has_item_name.
  fold (field rd "Item Name"). by rewrite truthy_empty_zero, Hz, andb_true_r.
Qed.

Lemma numbered_rows headers rows : ∀ idx,
  (numbered headers idx rows).*2 = dict_zip headers <$> rows.
Proof. induction rows as [|row rows IH]; intros idx; simpl; [done|]. by rewrite IH. Qed.

Lemma region_ext (p q : gmap string value → bool) l :
  Forall (λ x, p x.2 = q x.2) l → region p l = region q l.
Proof. induction 1 as [|x l Hx _ IH]; simpl; [done|]. by rewrite Hx, IH. Qed.

Lemma regions_ext (p q : gmap string value → bool) l :
  Forall (λ x, p x.2 = q x.2) l → regions p l = regions q l.
Proof.
  induction 1 as [|x l Hx Hl IH]; simpl; [done|].
  by rewrite Hx, IH, (region_ext p q l Hl).
Qed.

Lemma regions_length (p : gmap string value → bool) l :
  length (regions p l) = length (List.filter p l.*2).
Proof.
  induction l as [|x l IH]; simpl; [done|].
  destruct (p x.2); simpl; by rewrite IH.
Qed.

Lemma region_sub (p : gmap string value → bool) l x : x ∈ region p l → x ∈ l.
Proof.
  induction l as [|y l IH]; simpl; [done|].
  destruct (p y.2); [by intros ?%elem_of_nil|].
  intros [->|Hx]%elem_of_cons; [left | right; auto].
Qed.

Lemma regions_sub (p : gmap string value → bool) l reg x :
  reg ∈ regions p l → x ∈ region_rows reg → x ∈ l.
Proof.
  induction l as [|y l IH]; simpl; [by intros ?%elem_of_nil|].
  destruct (p y.2).
  - intros [->|Hreg]%elem_of_cons; [|right; auto].
    unfold region_rows. simpl. intros [->|Hx]%elem_of_cons; [left|right].
    by eapply region_sub.
  - right; auto.
Qed.

Lemma filter_ext_Forall {A} (p q : A → bool) l :
  Forall (λ x, p x = q x) l → List.filter p l = List.filter q l.
Proof. induction 1 as [|x l Hx _ IH]; simpl; [done|]. by rewrite Hx, IH. Qed.

Lemma map_result_Forall2 {A B} (f : A → result B) l : ∀ ys,
  map_result f l = Ok ys → Forall2 (λ x y, f x = Ok y) l ys.
Proof.
  induction l as [|x l IH]; simpl; intros ys Hys.
  - injection Hys as <-. constructor.
  - destruct (f x) as [y|e] eqn:Hx; simpl in Hys; [|done].
    destruct (map_result f l) as [ys'|e] eqn:Hl; simpl in Hys; [|done].
    injection Hys as <-. constructor; auto.
Qed.

Lemma Forall2_impl_elem {A B} (P Q : A → B → Prop) l k :
  Forall2 P l k →
  (∀ x y, x ∈ l → y ∈ k → P x y → Q x y) →
  Forall2 Q l k.
Proof.
  induction 1 as [|x y l k Hxy _ IH]; intros HPQ; constructor.
  - apply HPQ; [left | left | done].
  - apply IH. intros x' y' Hx' Hy'. apply HPQ; by right.
Qed.

Lemma no_zero_like_numbered column headers rows idx :
  no_zero_like column (dict_zip headers <$> rows) →
  Forall (λ x, zero_like (field x.2 column) = false) (numbered headers idx rows).
Proof.
  unfold no_zero_like. rewrite <- (numbered_rows headers rows idx).
  by rewrite Forall_fmap.
Qed.

Section ReaderFacts.
Context `{Builtins}.

Lemma new_invoice_fields now rd inv :
  new_invoice now rd = Ok inv →
  items inv = [] ∧
  invoice_number inv = py_str (get rd "Invoice Number" (VStr "")) ∧
  date inv = get rd "Date" (VStr (strftime_ymd now)).
Proof.
  unfold new_invoice.
  destruct (numeric_field rd "Tax %"); simpl; [|done].
  destruct (numeric_field rd "Discount %"); simpl; [|done].
  by intros [= <-].
Qed.

(** The invoices read from a sheet match its regions one to one: each has
    the number of the starting row of its region, and its items are those of
    the rows of the region that carry one. *)
Lemma read_excel_data_items now_at headers rows invs :
  read_excel_data now_at headers rows = Ok invs →
  Forall2 (λ inv reg,
             invoice_number inv = py_str (get reg.1.2 "Invoice Number" (VStr "")) ∧
             Forall2 (λ x it, new_item x.2 = Ok it)
                     (List.filter (λ x, carries_item x.2) (region_rows reg)) (items inv))
          invs (regions starts_invoice (numbered headers 2 rows)).
Proof.
  rewrite read_excel_data_regions. intros Hmap%map_result_Forall2.
  apply Forall2_flip. eapply Forall2_impl; [exact Hmap|].
  intros reg inv. simpl. unfold invoice_of_region.
  destruct (new_invoice _ _) as [inv0|e] eqn:Hinv; simpl; [|done].
  destruct (collect_items (region_rows reg)) as [its|e] eqn:Hits; simpl; [|done].
  intros [= <-]. simpl.
  destruct (new_invoice_fields _ _ _ Hinv) as (Hnil & Hnum & _).
  rewrite Hnil. simpl. split; [done|]. by apply map_result_Forall2.
Qed.

(** The same in the words of the specification, for a sheet without
    zero-like cells in the two columns that steer the loop. *)
Lemma grouped_items now_at headers rows invs :
  read_excel_data now_at headers rows = Ok invs →
  no_zero_like "Invoice Number" (dict_zip headers <$> rows) →
  no_zero_like "Item Name" (dict_zip headers <$> rows) →
  Forall2 (λ inv reg,
             invoice_number inv = py_str (get reg.1.2 "Invoice Number" (VStr "")) ∧
             Forall2 (λ x it, new_item x.2 = Ok it)
                     (List.filter (λ x, has_item_name x.2) (region_rows reg)) (items inv))
          invs (regions has_invoice_number (numbered headers 2 rows)).
Proof.
  intros Hread Hinv Hitem.
  apply (no_zero_like_numbered _ _ _ 2) in Hinv, Hitem.
  rewrite <- (regions_ext starts_invoice has_invoice_number).
  2:{ eapply Forall_impl; [exact Hinv|]. intros x. apply starts_invoice_spec. }
  eapply Forall2_impl_elem; [by apply (read_excel_data_items now_at)|].
  intros inv reg _ Hreg [Hnum Hitems]. cbv beta in *. split; [done|].
  rewrite <- (filter_ext_Forall (λ x, carries_item x.2) (λ x, has_item_name x.2)); [done|].
  apply Forall_forall. intros x Hx. apply carries_item_spec.
  rewrite Forall_forall in Hitem. apply Hitem.
  eapply regions_sub; [exact Hreg | exact Hx].
Qed.

(** The grouper returns on every sheet whose numeric fields all convert. *)
Lemma read_excel_data_returns now_at headers rows :
  Forall (λ rd, Forall (λ key, is_ok (numeric_field rd key) = true) numeric_columns)
         (dict_zip headers <$> rows) →
  is_ok (read_excel_data now_at headers rows) = true.
Proof.
  intros Hok. rewrite read_excel_data_regions.
  rewrite <- (numbered_rows headers rows 2), Forall_fmap in Hok.
  set (good := λ rd, Forall (λ key, is_ok (numeric_field rd key) = true) numeric_columns)
    in *.
  assert (Hitem : ∀ rd, good rd → is_ok (new_item rd) = true).
  { intros rd Hrd. unfold new_item.
    apply Forall_cons in Hrd as [Hq Hrd]. apply Forall_cons in Hrd as [Hp _].
    destruct (numeric_field rd "Quantity"); [|done].
    by destruct (numeric_field rd "Price"). }
  assert (Hinv : ∀ now rd, good rd → is_ok (new_invoice now rd) = true).
  { intros now rd Hrd. unfold new_invoice.
    apply Forall_cons in Hrd as [_ Hrd]. apply Forall_cons in Hrd as [_ Hrd].
    apply Forall_cons in Hrd as [Ht Hrd]. apply Forall_cons in Hrd as [Hd _].
    destruct (numeric_field rd "Tax %"); [|done].
    by destruct (numeric_field rd "Discount %"). }
  assert (Hcollect : ∀ l, Forall (λ x, good x.2) l → is_ok (collect_items l) = true).
  { induction 1 as [|x l Hx Hl IH]; [done|].
    rewrite collect_items_cons. destruct (carries_item x.2); [|done].
    specialize (Hitem _ Hx). destruct (new_item x.2); [|done]. simpl.
    by destruct (collect_items l). }
  assert (Hregs : Forall (λ reg, Forall (λ x, good x.2) (region_rows reg))
                         (regions starts_invoice (numbered headers 2 rows))).
  { apply Forall_forall. intros reg Hreg.
    apply Forall_forall. intros x Hx. rewrite Forall_forall in Hok.
    apply Hok. by eapply regions_sub. }
  induction Hregs as [|reg regs Hreg _ IH]; [done|]. simpl.
  assert (Hone : is_ok (invoice_of_region now_at reg) = true).
  { unfold invoice_of_region.
    apply Forall_cons in Hreg as Hreg'. destruct Hreg' as [Hstart _].
    specialize (Hinv (now_at reg.1.1) _ Hstart).
    destruct (new_invoice _ _); [|done]. simpl.
    specialize (Hcollect _ Hreg). by destruct (collect_items _). }
  destruct (invoice_of_region now_at reg); [|done]. simpl.
  by destruct (map_result _ regs).
Qed.

(** Rows read while no invoice is open, none of which starts one, leave the
    state as it is. *)
Lemma read_rows_orphans now_at headers pre : ∀ idx rest st,
  current_invoice st = None →
  Forall (λ row, starts_invoice (dict_zip headers row) = false) pre →
  read_rows now_at headers idx (pre ++ rest) st =
  read_rows now_at headers (idx + length pre) rest st.
Proof.
  induction pre as [|row pre IH]; intros idx rest st Hst Hpre; simpl.
  - by rewrite Nat.add_0_r.
  - apply Forall_cons in Hpre as [Hrow Hpre].
    unfold read_row. fold (starts_invoice (dict_zip headers row)).
    rewrite Hrow. simpl. rewrite Hst. simpl.
    rewrite IH by done. f_equal. lia.
Qed.

(** Reading from a later row number is reading with a later clock. *)
Lemma read_rows_shift now_at headers k rows : ∀ idx st,
  read_rows now_at headers (idx + k) rows st =
  read_rows (λ i, now_at (i + k)%nat) headers idx rows st.
Proof.
  induction rows as [|row rows IH]; intros idx st; simpl; [done|].
  destruct (read_row _ _ _) as [st'|e]; simpl; [|done].
  apply (IH (S idx)).
Qed.

End ReaderFacts.

(** ** The grouper *)

Section GrouperProperties.
Context `{Builtins}.

(** C2 (amended).  Whenever the grouper returns, and no [Invoice Number] cell
    holds a zero or [False], the number of invoices produced is the number
    of data rows whose [Invoice Number] is non-empty. *)
Theorem record_count now_at headers rows invs :
  read_excel_data now_at headers rows = Ok invs →
  no_zero_like "Invoice Number" (dict_zip headers <$> rows) →
  length invs =
  length (List.filter has_invoice_number (dict_zip headers <$> rows)).
Proof.
  intros Hread Hplain.
  rewrite read_excel_data_regions in Hread.
  apply map_result_Forall2, Forall2_length in Hread.
  rewrite <- Hread, regions_length, numbered_rows.
  f_equal. apply filter_ext_Forall.
  eapply Forall_impl; [exact Hplain|]. intros rd. apply starts_invoice_spec.
Qed.

End GrouperProperties.

(** [record_count] on a sheet with an orphan row and two invoices. *)
Lemma record_count_witness :
  ∃ invs,
    @read_excel_data CPython (λ _, sample_now) sheet_headers
      [row_orphan; row_widget; row_gadget; row_bare] = Ok invs ∧
    length invs = 2%nat.
Proof.
  eexists. split; [vm_compute; reflexivity|].
  apply (@record_count CPython (λ _, sample_now) sheet_headers
           [row_orphan; row_widget; row_gadget; row_bare]).
  - vm_compute. reflexivity.
  - repeat constructor.
Defined.

(** C2, as stated, fails: a row whose [Invoice Number] is the number [0] has a
    non-empty invoice number and yields no invoice. *)
Lemma record_count_counterexample :
  @read_excel_data CPython (λ _, sample_now) sheet_headers [row_zero] = Ok [] ∧
  length (List.filter has_invoice_number (dict_zip sheet_headers <$> [row_zero])) = 1%nat.
Proof. split; vm_compute; reflexivity. Qed.

Section GrouperRegions.
Context `{Builtins}.

(** C6 (amended).  Whenever the grouper returns, and no [Invoice Number] or
    [Item Name] cell holds a zero or [False]: the invoices match, one to one
    and in order, the regions that run from a row with a non-empty
    [Invoice Number] up to the next such row or the end of the table; each
    invoice bears the number of the starting row of its region, has as many
    items as the region has rows with a non-empty [Item Name], and its items
    are those of these rows, in their order. *)
Theorem items_follow_region now_at headers rows invs :
  read_excel_data now_at headers rows = Ok invs →
  no_zero_like "Invoice Number" (dict_zip headers <$> rows) →
  no_zero_like "Item Name" (dict_zip headers <$> rows) →
  Forall2 (λ inv reg,
             invoice_number inv = py_str (field reg.1.2 "Invoice Number") ∧
             length (items inv) =
             length (List.filter (λ x, has_item_name x.2) (region_rows reg)) ∧
             Forall2 (λ x it, new_item x.2 = Ok it)
                     (List.filter (λ x, has_item_name x.2) (region_rows reg)) (items inv))
          invs (regions has_invoice_number (numbered headers 2 rows)).
Proof.
  intros Hread Hinv Hitem.
  eapply Forall2_impl_elem; [by apply (grouped_items now_at)|].
  intros inv reg _ Hreg [Hnum Hitems]. cbv beta in *.
  split; [|split; [|done]].
  - rewrite Hnum. unfold field, get.
    assert (Hstart : has_invoice_number reg.1.2 = true).
    { clear -Hreg. induction (numbered headers 2 rows) as [|x l IH]; simpl in Hreg.
      - by apply elem_of_nil in Hreg.
      - destruct (has_invoice_number x.2) eqn:Hx; [|by apply IH].
        apply elem_of_cons in Hreg as [-> | Hreg]; [done | by apply IH]. }
    unfold has_invoice_number, field, get in Hstart.
    by destruct (reg.1.2 !! "Invoice Number").
  - symmetry. by eapply Forall2_length.
Qed.

(** C8 (amended).  Under the same conditions, an invoice has items exactly
    when some row of its region has a non-empty [Item Name]; a region
    without such a row still yields an invoice, with no item. *)
Theorem items_nonempty_iff now_at headers rows invs :
  read_excel_data now_at headers rows = Ok invs →
  no_zero_like "Invoice Number" (dict_zip headers <$> rows) →
  no_zero_like "Item Name" (dict_zip headers <$> rows) →
  Forall2 (λ inv reg,
             items inv ≠ [] ↔
             ∃ x, x ∈ region_rows reg ∧ has_item_name x.2 = true)
          invs (regions has_invoice_number (numbered headers 2 rows)).
Proof.
  intros Hread Hinv Hitem.
  eapply Forall2_impl; [by apply (grouped_items now_at)|].
  intros inv reg [_ Hitems]. cbv beta in *.
  apply Forall2_length in Hitems.
  split.
  - intros Hne.
    destruct (List.filter (λ x, has_item_name x.2) (region_rows reg)) as [|x l] eqn:Hf.
    + destruct (items inv); [done | discriminate].
    + assert (Hx : In x (List.filter (λ x, has_item_name x.2) (region_rows reg)))
        by (rewrite Hf; by left).
      apply filter_In in Hx as [Hx Hname].
      exists x. split; [by apply list_elem_of_In | done].
  - intros (x & Hx & Hname) Hnil. rewrite Hnil in Hitems.
    assert (Hin : In x (List.filter (λ x, has_item_name x.2) (region_rows reg))).
    { apply filter_In. split; [by apply list_elem_of_In | done]. }
    destruct (List.filter _ _); [done | discriminate].
Qed.

(** C9.  A row without invoice number that comes before every row with one
    is dropped, whatever it holds: the grouper gives what it gives on the
    rows after it alone, read at the same moments. *)
Theorem orphan_rows_dropped now_at headers pre row post :
  Forall (λ r, has_invoice_number (dict_zip headers r) = false) pre →
  has_invoice_number (dict_zip headers row) = false →
  read_excel_data now_at headers (pre ++ row :: post) =
  read_excel_data (λ i, now_at (i + S (length pre))%nat) headers post.
Proof.
  intros Hpre Hrow. unfold read_excel_data.
  assert (Hall : Forall (λ r, starts_invoice (dict_zip headers r) = false) (pre ++ [row])).
  { apply Forall_app. split; [|apply Forall_singleton].
    - eapply Forall_impl; [exact Hpre|]. intros r Hr. simpl in Hr.
      apply is_empty_not_truthy. unfold has_invoice_number in Hr.
      by apply negb_false_iff in Hr.
    - apply is_empty_not_truthy. unfold has_invoice_number in Hrow.
      by apply negb_false_iff in Hrow. }
  replace (pre ++ row :: post) with ((pre ++ [row]) ++ post)
    by (by rewrite <- app_assoc).
  rewrite read_rows_orphans by done.
  replace (length (pre ++ [row])) with (S (length pre))
    by (rewrite length_app; simpl; lia).
  by rewrite (read_rows_shift now_at headers (S (length pre)) post 2).
Qed.

End GrouperRegions.

(** [items_follow_region] on the same sheet. *)
Lemma items_follow_region_witness :
  ∃ invs,
    @read_excel_data CPython (λ _, sample_now) sheet_headers
      [row_orphan; row_widget; row_gadget; row_bare] = Ok invs ∧
    Forall2 (λ inv reg,
               invoice_number inv = @py_str CPython (field reg.1.2 "Invoice Number") ∧
               length (items inv) =
               length (List.filter (λ x, has_item_name x.2) (region_rows reg)) ∧
               Forall2 (λ x it, @new_item CPython x.2 = Ok it)
                       (List.filter (λ x, has_item_name x.2) (region_rows reg))
                       (items inv))
            invs
            (regions has_invoice_number
               (numbered sheet_headers 2 [row_orphan; row_widget; row_gadget; row_bare])).
Proof.
  eexists. split; [vm_compute; reflexivity|].
  apply (@items_follow_region CPython (λ _, sample_now)).
  - vm_compute. reflexivity.
  - repeat constructor.
  - repeat constructor.
Defined.

(** C6, as stated, fails: the region of this invoice has two rows with a
    non-empty [Item Name], and the invoice has one item. *)
Lemma items_follow_region_counterexample :
  @read_excel_data CPython (λ _, sample_now) sheet_headers [row_widget; row_zero_name]
  = Ok [invoice_widget] ∧
  length (items invoice_widget) = 1%nat ∧
  map (λ reg, length (List.filter (λ x, has_item_name x.2) (region_rows reg)))
      (regions has_invoice_number (numbered sheet_headers 2 [row_widget; row_zero_name]))
  = [2%nat].
Proof. repeat split; vm_compute; reflexivity. Qed.

(** [items_nonempty_iff] on a sheet whose second invoice has no item. *)
Lemma items_nonempty_iff_witness :
  ∃ invs,
    @read_excel_data CPython (λ _, sample_now) sheet_headers
      [row_widget; row_gadget; row_bare] = Ok invs ∧
    Forall2 (λ inv reg,
               items inv ≠ [] ↔
               ∃ x, x ∈ region_rows reg ∧ has_item_name x.2 = true)
            invs
            (regions has_invoice_number
               (numbered sheet_headers 2 [row_widget; row_gadget; row_bare])).
Proof.
  eexists. split; [vm_compute; reflexivity|].
  apply (@items_nonempty_iff CPython (λ _, sample_now)).
  - vm_compute. reflexivity.
  - repeat constructor.
  - repeat constructor.
Defined.

(** C8, as stated, fails: a starting row without item, followed by no
    continuation row, yields an invoice without items. *)
Lemma items_nonempty_counterexample :
  @read_excel_data CPython (λ _, sample_now) sheet_headers [row_bare]
  = Ok [invoice_bare] ∧
  items invoice_bare = [].
Proof. split; vm_compute; reflexivity. Qed.

(** [orphan_rows_dropped] on two orphan rows, the second with a quantity that
    is not a number, before an invoice of two rows. *)
Lemma orphan_rows_dropped_witness :
  has_item_name (dict_zip sheet_headers row_orphan) = true ∧
  @read_excel_data CPython (λ _, sample_now) sheet_headers
    ([row_gadget] ++ row_orphan :: [row_widget; row_gadget]) =
  @read_excel_data CPython (λ _, sample_now) sheet_headers [row_widget; row_gadget].
Proof.
  split; [vm_compute; reflexivity|].
  apply (@orphan_rows_dropped CPython (λ _, sample_now) sheet_headers
           [row_gadget] row_orphan [row_widget; row_gadget]).
  - repeat constructor.
  - vm_compute. reflexivity.
Defined.

(** ** Numeric fields and dates *)

Lemma append_nonempty a c b : String.eqb (a +:+ String c b) "" = false.
Proof. by destruct a. Qed.

Lemma strftime_ymd_nonempty d : String.eqb (strftime_ymd d) "" = false.
Proof. unfold strftime_ymd. apply append_nonempty. Qed.

Section FieldProperties.
Context `{Builtins}.

Lemma numeric_field_empty rd key :
  is_empty (field rd key) = true → numeric_field rd key = Ok 0%float.
Proof.
  unfold field, numeric_field, get.
  destruct (rd !! key) as [v|]; simpl; [|done].
  destruct v as [|b|z|f|s|d]; simpl; try done.
  intros Hs. unfold py_or. simpl. by rewrite Hs.
Qed.

Lemma numeric_field_text rd key s :
  rd !! key = Some (VStr s) → s ≠ "" → float_of_str s = None →
  numeric_field rd key = Raise ValueError.
Proof.
  intros Hkey Hs Hparse. unfold numeric_field, get, py_or. rewrite Hkey. simpl.
  apply String.eqb_neq in Hs. rewrite Hs. simpl. by rewrite Hparse.
Qed.

(** C4 (amended).  A numeric field ([Quantity], [Price], [Tax %],
    [Discount %]) that is empty or missing is read as [0], and the grouper
    returns on every sheet whose numeric fields are all empty.  A text that
    is not a number is not read as [0]: its conversion raises [ValueError],
    and so does the construction of the item or of the invoice. *)
Theorem empty_numeric_fields_are_zero :
  (∀ rd key, is_empty (field rd key) = true → numeric_field rd key = Ok 0%float) ∧
  (∀ rd, is_empty (field rd "Quantity") = true → is_empty (field rd "Price") = true →
   new_item rd =
   Ok {| name := get rd "Item Name" (VStr ""); quantity := 0; price := 0 |}) ∧
  (∀ rd now,
     is_empty (field rd "Tax %") = true → is_empty (field rd "Discount %") = true →
     ∃ inv, new_invoice now rd = Ok inv ∧
            tax_percent inv = 0%float ∧ discount_percent inv = 0%float) ∧
  (∀ now_at headers rows,
     Forall (λ rd, Forall (λ key, is_empty (field rd key) = true) numeric_columns)
            (dict_zip headers <$> rows) →
     is_ok (read_excel_data now_at headers rows) = true) ∧
  (∀ rd key s, rd !! key = Some (VStr s) → s ≠ "" → float_of_str s = None →
   numeric_field rd key = Raise ValueError ∧
   (key = "Quantity" ∨ key = "Price" → is_ok (new_item rd) = false) ∧
   (key = "Tax %" ∨ key = "Discount %" → ∀ now, is_ok (new_invoice now rd) = false)).
Proof.
  split; [intros rd key; apply numeric_field_empty|].
  split; [|split; [|split]].
  - intros rd Hq Hp. unfold new_item.
    by rewrite (numeric_field_empty _ _ Hq), (numeric_field_empty _ _ Hp).
  - intros rd now Ht Hd. unfold new_invoice.
    rewrite (numeric_field_empty _ _ Ht), (numeric_field_empty _ _ Hd). simpl.
    eexists. split; [reflexivity|]. by split.
  - intros now_at headers rows Hempty. apply read_excel_data_returns.
    eapply Forall_impl; [exact Hempty|]. intros rd Hrd. cbv beta in *.
    eapply Forall_impl; [exact Hrd|]. intros key Hkey. cbv beta in *.
    by rewrite (numeric_field_empty _ _ Hkey).
  - intros rd key s Hkey Hs Hparse.
    pose proof (numeric_field_text rd key s Hkey Hs Hparse) as Hraise.
    split; [done|]. split.
    + intros [-> | ->]; unfold new_item.
      * by rewrite Hraise.
      * rewrite Hraise. by destruct (numeric_field rd "Quantity").
    + intros [-> | ->] now; unfold new_invoice.
      * by rewrite Hraise.
      * rewrite Hraise. by destruct (numeric_field rd "Tax %").
Qed.

(** C7 (amended).  On a row that starts an invoice without a date: when the
    sheet has no [Date] column, the invoice takes the date of the moment it
    is read; when the column is there and the cell is empty, the date of the
    invoice stays empty.  The document shows a current date either way: the
    date of reading in the first case, the date of rendering in the second. *)
Theorem missing_date_defaults now rd inv :
  new_invoice now rd = Ok inv →
  is_empty (field rd "Date") = true →
  date inv = match rd !! "Date" with
             | None => VStr (strftime_ymd now)
             | Some v => v
             end ∧
  ∀ cfg fs now_date now_footer,
    Table [[ VStr "Invoice Number:"; VStr (invoice_number inv); VStr "Date:";
             VStr (match rd !! "Date" with
                   | None => strftime_ymd now
                   | Some _ => strftime_ymd now_date
                   end) ]]
    ∈ story_of cfg fs now_date now_footer inv.
Proof.
  intros Hinv Hempty.
  assert (Hdate : date inv = default (VStr (strftime_ymd now)) (rd !! "Date")).
  { unfold new_invoice in Hinv.
    destruct (numeric_field rd "Tax %"); simpl in Hinv; [|done].
    destruct (numeric_field rd "Discount %"); simpl in Hinv; [|done].
    by injection Hinv as <-. }
  split; [rewrite Hdate; by destruct (rd !! "Date")|].
  intros cfg fs now_date now_footer.
  assert (Hshow : invoice_date now_date (date inv) =
                  match rd !! "Date" with
                  | None => strftime_ymd now
                  | Some _ => strftime_ymd now_date
                  end).
  { rewrite Hdate. unfold field, get in Hempty.
    destruct (rd !! "Date") as [v|]; simpl in *.
    - destruct v as [|b|z|f|s|d]; simpl in *; try done. by rewrite Hempty.
    - by rewrite strftime_ymd_nonempty. }
  rewrite <- Hshow. unfold story_of.
  apply elem_of_app. right.
  do 4 apply list_elem_of_further. apply list_elem_of_here.
Qed.

End FieldProperties.

(** [empty_numeric_fields_are_zero] on the quantity ["abc"]. *)
Lemma empty_numeric_fields_witness :
  @numeric_field CPython (dict_zip sheet_headers row_bad_quantity) "Quantity"
  = Raise ValueError.
Proof.
  apply (@empty_numeric_fields_are_zero CPython) with (s := "abc").
  - vm_compute. reflexivity.
  - discriminate.
  - vm_compute. reflexivity.
Defined.

(** C4, as stated, fails: a quantity that is a text and not a number makes the
    grouper raise [ValueError]; it is not read as [0]. *)
Lemma empty_numeric_fields_counterexample :
  @read_excel_data CPython (λ _, sample_now) sheet_headers [row_widget; row_bad_quantity]
  = Raise ValueError.
Proof. vm_compute. reflexivity. Qed.

(** [missing_date_defaults] on a starting row whose date cell is empty. *)
Lemma missing_date_witness :
  date invoice_bare = VNone ∧
  ∀ cfg fs now_date now_footer,
    Table [[ VStr "Invoice Number:"; VStr "INV-002"; VStr "Date:";
             VStr (strftime_ymd now_date) ]]
    ∈ @story_of CPython cfg fs now_date now_footer invoice_bare.
Proof.
  apply (@missing_date_defaults CPython sample_now (dict_zip sheet_headers row_bare)).
  - vm_compute. reflexivity.
  - vm_compute. reflexivity.
Defined.

(** C7, as stated, fails: the sheet has a [Date] column, the cell of the
    starting row is empty, and the date of the invoice is [None], not the
    current date. *)
Lemma missing_date_counterexample :
  is_empty (field (dict_zip sheet_headers row_bare) "Date") = true ∧
  @read_excel_data CPython (λ _, sample_now) sheet_headers [row_bare] = Ok [invoice_bare] ∧
  date invoice_bare = VNone ∧
  date invoice_bare ≠ VStr (strftime_ymd sample_now).
Proof. repeat split; try (vm_compute; reflexivity). discriminate. Qed.

(** ** Totals *)

(** C1.  [calculate_totals] computes the reference formulas, [sum] being the
    sum of the interpreter and the operations those of binary64 floats:
    the subtotal is the sum of [quantity * price] over the items, the
    discount is the subtotal times [discount_percent / 100], and so on.
    On the example of the specification it returns 250, 25, 225, 22.5 and
    247.5, whichever of the two summation algorithms the interpreter has. *)
Theorem calculate_totals_formulas :
  (∀ (B : Builtins) (items : list item) (tax_percent discount_percent : float),
     let t := calculate_totals items tax_percent discount_percent in
     subtotal t = float_sum (map (λ it, quantity it * price it)%float items) ∧
     discount_amount t = (subtotal t * (discount_percent / 100))%float ∧
     subtotal_after_discount t = (subtotal t - discount_amount t)%float ∧
     tax_amount t = (subtotal_after_discount t * (tax_percent / 100))%float ∧
     total t = (subtotal_after_discount t + tax_amount t)%float) ∧
  @calculate_totals CPython example_items 10 10 =
    {| subtotal := 250; discount_amount := 25; subtotal_after_discount := 225;
       tax_amount := 22.5; total := 247.5 |} ∧
  @calculate_totals CPython312 example_items 10 10 =
    {| subtotal := 250; discount_amount := 25; subtotal_after_discount := 225;
       tax_amount := 22.5; total := 247.5 |}.
Proof.
  split; [|split].
  - intros B items tp dp t. subst t. unfold calculate_totals. simpl. done.
  - vm_compute. reflexivity.
  - vm_compute. reflexivity.
Qed.

Section TotalsBlock.
Context `{Builtins}.

(** C5.  The totals block has the discount line and the line of the subtotal
    after discount exactly when [discount_percent > 0], the tax line exactly
    when [tax_percent > 0]; its first line is the subtotal, its last the
    total due, and its lines come in the order subtotal, discount, subtotal
    after discount, tax, total.  With no discount and no tax it has the two
    lines of the subtotal and of the total. *)
Theorem totals_block_lines cfg inv :
  let labels := (totals_block cfg inv).*1 in
  let d := discount_percent inv in
  let t := tax_percent inv in
  (discount_label d ∈ labels ↔ (0 <? d)%float = true) ∧
  ("Subtotal after Discount:" ∈ labels ↔ (0 <? d)%float = true) ∧
  (tax_label t ∈ labels ↔ (0 <? t)%float = true) ∧
  head labels = Some "Subtotal:" ∧
  last labels = Some "Total Amount Due:" ∧
  labels `sublist_of`
    [ "Subtotal:"; discount_label d; "Subtotal after Discount:"; tax_label t;
      "Total Amount Due:" ] ∧
  (d = 0%float → t = 0%float → labels = ["Subtotal:"; "Total Amount Due:"]).
Proof.
  intros labels d t. subst labels. unfold totals_block, totals_data.
  fold d t. unfold discount_label, tax_label.
  destruct (0 <? d)%float eqn:Hd; destruct (0 <? t)%float eqn:Ht; simpl;
    rewrite ?elem_of_cons, ?elem_of_nil.
  all: repeat split; try done; try (intros; by left); try (intros; right; by left);
    try (intros; right; right; by left); try (intros; right; right; right; by left).
  all: try (intros Hin; repeat destruct Hin as [Hin|Hin]; try discriminate Hin; done).
  all: try (intros -> ; by vm_compute in Hd).
  all: try (intros _ ->; by vm_compute in Ht).
  all: try (repeat first [ apply sublist_skip | apply sublist_cons | apply sublist_nil ]).
Qed.

End TotalsBlock.

(** ** File names *)

Lemma chars_append a b :
  list_ascii_of_string (a +:+ b) = list_ascii_of_string a ++ list_ascii_of_string b.
Proof. induction a as [|c a IH]; simpl; [done|]. by rewrite IH. Qed.

Lemma append_assoc a b c : (a +:+ b) +:+ c = a +:+ (b +:+ c).
Proof.
  induction a as [|x a IH]; [done|].
  change (String x ((a +:+ b) +:+ c) = String x (a +:+ b +:+ c)). by rewrite IH.
Qed.

(** Whatever the folder, the file written is the folder, perhaps a
    separator, and [Invoice_<number>.pdf]. *)
Lemma invoice_filename_shape cfg n :
  ∃ dir, invoice_filename cfg n = dir +:+ "Invoice_" +:+ n +:+ ".pdf".
Proof.
  unfold invoice_filename, path_join.
  change (starts_with_sep ("Invoice_" +:+ n +:+ ".pdf")) with false. cbv iota.
  destruct (String.eqb (output_folder cfg) "" || ends_with_sep (output_folder cfg)).
  - by exists (output_folder cfg).
  - exists (output_folder cfg +:+ "/"). by rewrite append_assoc.
Qed.

Lemma download_path_shape n :
  download_path n = n +:+ ".pdf" ∨
  download_path n = "generated_invoices/" +:+ n +:+ ".pdf".
Proof.
  unfold download_path, path_join.
  destruct (starts_with_sep (n +:+ ".pdf")); [by left | by right].
Qed.

Lemma filename_not_download_path cfg n : invoice_filename cfg n ≠ download_path n.
Proof.
  destruct (invoice_filename_shape cfg n) as [dir ->].
  destruct (download_path_shape n) as [-> | ->]; intros Heq;
    apply (f_equal list_ascii_of_string) in Heq; rewrite !chars_append in Heq.
  - apply (f_equal length) in Heq. rewrite !length_app in Heq. simpl in Heq. lia.
  - change (list_ascii_of_string "Invoice_")
      with (list_ascii_of_string "Invoice" ++ ["_"%char]) in Heq.
    change (list_ascii_of_string "generated_invoices/")
      with (list_ascii_of_string "generated_invoices" ++ ["/"%char]) in Heq.
    rewrite !app_assoc in Heq.
    apply app_inv_tail in Heq. apply app_inv_tail in Heq.
    rewrite <- !app_assoc in Heq. rewrite app_assoc in Heq.
    apply app_inj_tail in Heq as [_ Hc]. discriminate Hc.
Qed.

Section Download.
Context `{Builtins}.

(** C10.  For every invoice number and every output folder, the default one
    included, the path the renderer writes differs from the path the
    download endpoint looks for; so rendering an invoice leaves whatever is
    under the download path untouched, and a download of that number on a
    disk that had no such file answers that the invoice is not found. *)
Theorem download_never_finds_generated (n : string) :
  (∀ cfg, invoice_filename cfg n ≠ download_path n) ∧
  invoice_filename default_config n = "generated_invoices/Invoice_" +:+ n +:+ ".pdf" ∧
  (∀ w cfg idx inv fs,
     invoice_number inv = n →
     (generate_pdf w cfg idx inv fs).2 !! download_path n = fs !! download_path n) ∧
  (∀ w cfg idx inv fs,
     invoice_number inv = n →
     path_exists fs (download_path n) = false →
     download_invoice (generate_pdf w cfg idx inv fs).2 n = NotFound).
Proof.
  assert (Hkeep : ∀ w cfg idx inv fs,
            invoice_number inv = n →
            (generate_pdf w cfg idx inv fs).2 !! download_path n = fs !! download_path n).
  { intros w cfg idx inv fs Hn. unfold generate_pdf. rewrite Hn.
    destruct (build_error w _ _); simpl; [done|].
    apply lookup_insert_ne, filename_not_download_path. }
  split; [intros cfg; apply filename_not_download_path|].
  split; [reflexivity|]. split; [exact Hkeep|].
  intros w cfg idx inv fs Hn Hnone.
  unfold download_invoice, path_exists in *.
  rewrite (Hkeep w cfg idx inv fs Hn). by rewrite Hnone.
Qed.

End Download.

(** ** The batch *)

Section Batch.
Context `{Builtins}.

Lemma generate_pdf_ok w cfg idx inv fs filename fs' :
  generate_pdf w cfg idx inv fs = (Ok filename, fs') →
  filename = invoice_filename cfg (invoice_number inv) ∧
  ∃ story, fs' = <[filename := Pdf story]> fs.
Proof.
  unfold generate_pdf. destruct (build_error w _ _); [done|].
  intros [= <- <-]. split; [done|]. by eexists.
Qed.

Lemma generate_pdf_raise w cfg idx inv fs e fs' :
  generate_pdf w cfg idx inv fs = (Raise e, fs') → fs' = fs.
Proof.
  unfold generate_pdf. destruct (build_error w _ _); [|done]. by intros [= _ <-].
Qed.

(** A batch that goes through returns the names of the files of its
    invoices, in order; these files are on disk, and no other file changed. *)
Lemma generate_all_ok w cfg invs : ∀ idx files fs files' fs',
  generate_all w cfg idx invs files fs = (Ok files', fs') →
  files' = files ++ map (λ inv, invoice_filename cfg (invoice_number inv)) invs ∧
  (∀ inv, inv ∈ invs →
     path_exists fs' (invoice_filename cfg (invoice_number inv)) = true) ∧
  (∀ p, p ∉ map (λ inv, invoice_filename cfg (invoice_number inv)) invs →
     fs' !! p = fs !! p).
Proof.
  induction invs as [|inv invs IH]; intros idx files fs files' fs'; simpl.
  - intros [= <- <-]. rewrite app_nil_r. split; [done|]. split; [|done].
    by intros inv ?%elem_of_nil.
  - destruct (generate_pdf w cfg idx inv fs) as [[filename|e] fs1] eqn:Hgen; [|done].
    apply generate_pdf_ok in Hgen as [-> [story ->]].
    intros (-> & Hon & Hoff)%IH. split; [by rewrite <- app_assoc|]. split.
    + intros inv' Hin'. apply elem_of_cons in Hin' as [Heq|Hin]; [|by apply Hon].
      subst inv'. rename inv into inv'.
      unfold path_exists. apply bool_decide_eq_true.
      destruct (decide (invoice_filename cfg (invoice_number inv') ∈
                        map (λ inv, invoice_filename cfg (invoice_number inv)) invs))
        as [Hdup|Hnew].
      * apply list_elem_of_In, in_map_iff in Hdup as (inv'' & Heq & Hin).
        rewrite <- Heq. eapply bool_decide_eq_true_1.
        apply Hon. by apply list_elem_of_In.
      * rewrite (Hoff _ Hnew). rewrite lookup_insert_eq. by eexists.
    + intros p Hp. apply not_elem_of_cons in Hp as [Hne Hp].
      rewrite (Hoff _ Hp). by rewrite lookup_insert_ne.
Qed.

(** The loop stops at the first invoice whose rendering raises. *)
Lemma generate_all_app w cfg pre rest : ∀ idx files fs,
  generate_all w cfg idx (pre ++ rest) files fs =
  match generate_all w cfg idx pre files fs with
  | (Ok files', fs') => generate_all w cfg (idx + length pre) rest files' fs'
  | (Raise e, fs') => (Raise e, fs')
  end.
Proof.
  induction pre as [|inv pre IH]; intros idx files fs; simpl.
  - by rewrite Nat.add_0_r.
  - destruct (generate_pdf w cfg idx inv fs) as [[filename|e] fs1]; [|done].
    rewrite IH. by replace (S idx + length pre)%nat with (idx + S (length pre))%nat by lia.
Qed.

(** C3 (amended).  There is no report per record, and a failure is not
    skipped over: when the invoices before one render and that one raises,
    [process_excel_file] raises the same exception.  The files of the
    invoices before it are on disk and are all that was written; no invoice
    after it is rendered, and no list of files is returned. *)
Theorem failure_ends_batch w cfg headers rows fs pre bad post files fs' e :
  read_excel_data (now_read w) headers rows = Ok (pre ++ bad :: post) →
  generate_all w cfg 1 pre [] fs = (Ok files, fs') →
  (generate_pdf w cfg (S (length pre)) bad fs').1 = Raise e →
  process_excel_file w cfg headers rows fs = (Raise e, fs') ∧
  (∀ inv, inv ∈ pre →
     path_exists fs' (invoice_filename cfg (invoice_number inv)) = true) ∧
  (∀ p, p ∉ map (λ inv, invoice_filename cfg (invoice_number inv)) pre →
     fs' !! p = fs !! p).
Proof.
  intros Hread Hpre Hbad. unfold process_excel_file. rewrite Hread.
  rewrite generate_all_app, Hpre. simpl.
  destruct (generate_pdf w cfg (S (length pre)) bad fs') as [[filename|e'] fs2] eqn:Hgen;
    simpl in Hbad; [done|].
  injection Hbad as ->. apply generate_pdf_raise in Hgen as ->.
  split; [done|]. by apply generate_all_ok in Hpre as (_ & Hon & Hoff).
Qed.

End Batch.

(** [failure_ends_batch] on three invoices, the second of which cannot be
    written. *)
Lemma failure_ends_batch_witness :
  @process_excel_file CPython failing_world default_config sheet_headers batch_rows ∅
  = (Raise OSError,
     (@generate_all CPython failing_world default_config 1 (take 1 batch_invoices) [] ∅).2).
Proof.
  apply (@failure_ends_batch CPython failing_world default_config sheet_headers
           batch_rows ∅ (take 1 batch_invoices) invoice_bare (drop 2 batch_invoices)
           ["generated_invoices/Invoice_INV-001.pdf"]).
  - vm_compute. reflexivity.
  - vm_compute. reflexivity.
  - vm_compute. reflexivity.
Defined.

(** C3, as stated, fails: the second of three invoices cannot be written; the
    batch raises, and the third invoice, which could have been written, is
    not rendered. *)
Lemma failure_ends_batch_counterexample :
  build_error failing_world "generated_invoices/Invoice_INV-005.pdf" [] = None ∧
  (@process_excel_file CPython failing_world default_config sheet_headers batch_rows ∅).1
  = Raise OSError ∧
  path_exists
    (@process_excel_file CPython failing_world default_config sheet_headers batch_rows ∅).2
    "generated_invoices/Invoice_INV-001.pdf" = true ∧
  path_exists
    (@process_excel_file CPython failing_world default_config sheet_headers batch_rows ∅).2
    "generated_invoices/Invoice_INV-005.pdf" = false.
Proof. repeat split; vm_compute; reflexivity. Qed.

(** [download_never_finds_generated] on an empty disk. *)
Lemma download_never_finds_witness :
  download_invoice
    (@generate_pdf CPython failing_world default_config 1 invoice_widget ∅).2 "INV-001"
  = NotFound.
Proof.
  apply (@download_never_finds_generated CPython "INV-001").
  - reflexivity.
  - vm_compute. reflexivity.
Defined.

(** ** Uploaded file names *)

Lemma contains_char_append c a b :
  contains_char c (a +:+ b) = contains_char c a || contains_char c b.
Proof.
  induction a as [|x a IH]; [done|].
  change (Ascii.eqb x c || contains_char c (a +:+ b) =
          (Ascii.eqb x c || contains_char c a) || contains_char c b).
  by rewrite IH, orb_assoc.
Qed.

Lemma rsplit1_no_sep sep s : contains_char sep s = false → rsplit1 sep s = [s].
Proof.
  induction s as [|c s IH]; simpl; [done|].
  intros [Hc Hs]%orb_false_iff. rewrite (IH Hs), Hc. done.
Qed.

(** The split is at the last separator. *)
Lemma rsplit1_spec sep s :
  contains_char sep s = true →
  ∃ a b, rsplit1 sep s = [a; b] ∧ s = a +:+ String sep b ∧ contains_char sep b = false.
Proof.
  induction s as [|c s IH]; simpl; [done|].
  destruct (contains_char sep s) eqn:Hs.
  - intros _. destruct (IH eq_refl) as (a & b & -> & -> & Hb).
    exists (String c a), b. done.
  - rewrite orb_false_r. intros Hc. rewrite (rsplit1_no_sep _ _ Hs), Hc.
    apply Ascii.eqb_eq in Hc as ->. exists EmptyString, s. done.
Qed.

Lemma rsplit1_append sep a b :
  contains_char sep b = false → rsplit1 sep (a +:+ String sep b) = [a; b].
Proof.
  intros Hb. induction a as [|c a IH].
  - simpl. by rewrite (rsplit1_no_sep _ _ Hb), Ascii.eqb_refl.
  - change (rsplit1 sep (String c (a +:+ String sep b)) = [String c a; b]).
    simpl. by rewrite IH.
Qed.

Lemma allowed_file_extension filename :
  allowed_file filename = true →
  ∃ base ext,
    filename = base +:+ "." +:+ ext ∧
    contains_char "." ext = false ∧
    (str_lower ext = "xlsx" ∨ str_lower ext = "xls").
Proof.
  unfold allowed_file. intros [Hdot Hext]%andb_true_iff.
  destruct (rsplit1_spec _ _ Hdot) as (a & b & Hsplit & -> & Hb).
  rewrite Hsplit in Hext. simpl in Hext.
  apply bool_decide_eq_true in Hext. unfold ALLOWED_EXTENSIONS in Hext.
  exists a, b. split; [done|]. split; [done|].
  rewrite !elem_of_cons, elem_of_nil in Hext. tauto.
Qed.

(** X1.  [allowed_file] accepts a name exactly when it ends in a dot
    followed by an extension without dot that reads [xlsx] or [xls] once put
    in lower case; what stands before that last dot, the empty text
    included, plays no part. *)
Theorem allowed_file_iff filename :
  allowed_file filename = true ↔
  ∃ base ext,
    filename = base +:+ "." +:+ ext ∧
    contains_char "." ext = false ∧
    (str_lower ext = "xlsx" ∨ str_lower ext = "xls").
Proof.
  split; [apply allowed_file_extension|]. unfold allowed_file.
  - intros (base & ext & -> & Hext & Hlow).
    change (base +:+ "." +:+ ext) with (base +:+ String "." ext).
    rewrite (rsplit1_append "." base ext Hext), contains_char_append.
    change (contains_char "." (String "." ext)) with true.
    rewrite orb_true_r. simpl.
    apply bool_decide_eq_true. unfold ALLOWED_EXTENSIONS.
    rewrite !elem_of_cons. tauto.
Qed.

(** ** Rows as dictionaries *)

Lemma dict_zip_columns headers row :
  dict_zip headers row = foldl (λ m kv, <[kv.1 := kv.2]> m) ∅ (columns headers row).
Proof.
  unfold dict_zip, columns. generalize (∅ : gmap string value).
  induction (zip headers row) as [|[h v] l IH]; intros m; simpl; [done|].
  destruct h; simpl; by rewrite IH.
Qed.

Lemma foldl_insert_absent (l : list (string * value)) : ∀ (m : gmap string value) k,
  k ∉ l.*1 → foldl (λ m kv, <[kv.1 := kv.2]> m) m l !! k = m !! k.
Proof.
  induction l as [|[k' v] l IH]; intros m k Hk; simpl; [done|].
  simpl in Hk. apply not_elem_of_cons in Hk as [Hne Hk].
  rewrite IH by done. by rewrite lookup_insert_ne.
Qed.

Lemma foldl_insert_perm (l l' : list (string * value)) :
  l ≡ₚ l' → NoDup l.*1 →
  ∀ m : gmap string value,
    foldl (λ m kv, <[kv.1 := kv.2]> m) m l = foldl (λ m kv, <[kv.1 := kv.2]> m) m l'.
Proof.
  induction 1 as [|x l l' Hperm IH|x y l|l l' l'' H1 IH1 H2 IH2]; intros Hnd m; simpl.
  - done.
  - apply NoDup_cons in Hnd as [_ Hnd]. by apply IH.
  - simpl in Hnd. apply NoDup_cons in Hnd as [Hy _].
    rewrite insert_insert_ne; [done|].
    intros Heq. apply Hy. rewrite Heq. left.
  - rewrite IH1 by done. apply IH2.
    assert (Hp : l.*1 ≡ₚ l'.*1) by (by apply fmap_Permutation).
    by rewrite <- Hp.
Qed.

Lemma columns_keys headers row k :
  k ∈ (columns headers row).*1 → VStr k ∈ headers.
Proof.
  unfold columns. revert row.
  induction headers as [|h headers IH]; intros [|v row]; simpl;
    try by intros ?%elem_of_nil.
  destruct h; simpl; try (intros Hk; right; by eapply IH).
  intros [->|Hk]%elem_of_cons; [left | right; by eapply IH].
Qed.

Lemma dict_zip_absent headers row k :
  k ∉ (columns headers row).*1 → dict_zip headers row !! k = None.
Proof. intros Hk. rewrite dict_zip_columns. by rewrite foldl_insert_absent. Qed.

(** X2.  The dictionary of a row, [dict(zip(headers, row))]: under a
    header that names several columns it holds the cell of the rightmost of
    them, and a header that names no column (or only columns beyond the end
    of the row) is not a key. *)
Theorem dict_zip_lookup headers row k :
  (∀ before v after,
     columns headers row = before ++ (k, v) :: after → k ∉ after.*1 →
     dict_zip headers row !! k = Some v) ∧
  (k ∉ (columns headers row).*1 → dict_zip headers row !! k = None).
Proof.
  rewrite dict_zip_columns. split.
  - intros before v after -> Hafter.
    rewrite foldl_app. simpl. rewrite foldl_insert_absent by done.
    by rewrite lookup_insert_eq.
  - intros Hk. by rewrite foldl_insert_absent.
Qed.

Lemma dict_zip_permuted headers row headers' row' :
  NoDup (columns headers row).*1 →
  columns headers' row' ≡ₚ columns headers row →
  dict_zip headers' row' = dict_zip headers row.
Proof.
  intros Hnd Hperm. rewrite !dict_zip_columns.
  symmetry. by apply foldl_insert_perm.
Qed.

Section ReaderMore.
Context `{Builtins}.

(** The loop sees a row only through what [read_row] makes of it. *)
Lemma read_rows_ext now_at headers headers' rows rows' :
  Forall2 (λ row row', ∀ now st,
             read_row now (dict_zip headers row) st =
             read_row now (dict_zip headers' row') st) rows rows' →
  ∀ idx st,
    read_rows now_at headers idx rows st = read_rows now_at headers' idx rows' st.
Proof.
  induction 1 as [|row row' rows rows' Hrow _ IH]; intros idx st; simpl; [done|].
  rewrite Hrow. destruct (read_row _ _ _); simpl; [apply IH | done].
Qed.

(** X3.  The reader does not depend on the order of the columns: two
    sheets whose rows hold the same cells under the same headers, each
    header naming one column, are read to the same result, exceptions
    included. *)
Theorem column_order_irrelevant now_at headers rows headers' rows' :
  Forall2 (λ row row',
             NoDup (columns headers row).*1 ∧
             columns headers' row' ≡ₚ columns headers row) rows rows' →
  read_excel_data now_at headers' rows' = read_excel_data now_at headers rows.
Proof.
  intros Hrows. unfold read_excel_data.
  rewrite (read_rows_ext now_at headers' headers rows' rows); [done|].
  apply Forall2_flip. eapply Forall2_impl; [exact Hrows|].
  intros row row' [Hnd Hperm] now st. cbv beta.
  by rewrite (dict_zip_permuted headers row headers' row').
Qed.

(** A continuation row is seen through three cells only. *)
Lemma read_row_continuation now rd rd' st :
  starts_invoice rd = false → starts_invoice rd' = false →
  rd !! "Item Name" = rd' !! "Item Name" →
  rd !! "Quantity" = rd' !! "Quantity" →
  rd !! "Price" = rd' !! "Price" →
  read_row now rd st = read_row now rd' st.
Proof.
  intros Hs Hs' Hname Hq Hp. unfold read_row.
  fold (starts_invoice rd) (starts_invoice rd'). rewrite Hs, Hs'. simpl.
  unfold new_item, numeric_field, get. by rewrite Hname, Hq, Hp.
Qed.

(** X4.  A row that starts no invoice is seen through its [Item Name],
    [Quantity] and [Price] cells only: changing any other cell of such rows
    (customer, address, phone, date, tax, discount) changes nothing in what
    the reader returns or raises. *)
Theorem continuation_cells_ignored now_at headers rows rows' :
  Forall2 (λ row row',
             row = row' ∨
             (starts_invoice (dict_zip headers row) = false ∧
              starts_invoice (dict_zip headers row') = false ∧
              ∀ key, key ∈ ["Item Name"; "Quantity"; "Price"] →
                     dict_zip headers row !! key = dict_zip headers row' !! key))
          rows rows' →
  read_excel_data now_at headers rows = read_excel_data now_at headers rows'.
Proof.
  intros Hrows. unfold read_excel_data.
  rewrite (read_rows_ext now_at headers headers rows rows'); [done|].
  eapply Forall2_impl; [exact Hrows|].
  intros row row' [-> | (Hs & Hs' & Hkeys)] now st; [done|].
  apply read_row_continuation; try done; apply Hkeys;
    rewrite !elem_of_cons; tauto.
Qed.

Lemma map_result_nil_inv {A B} (f : A → result B) l : map_result f l = Ok [] → l = [].
Proof.
  destruct l as [|x l]; [done|]. simpl.
  destruct (f x); simpl; [|done]. by destruct (map_result f l).
Qed.

Lemma regions_nil (l : list (nat * gmap string value)) :
  regions starts_invoice l = [] ↔ Forall (λ x, starts_invoice x.2 = false) l.
Proof.
  induction l as [|x l IH]; simpl; [done|].
  destruct (starts_invoice x.2) eqn:Hx.
  - split; [done|]. intros [Hx' _]%Forall_cons. congruence.
  - rewrite IH. split; [by constructor | by intros [_ ?]%Forall_cons].
Qed.

Lemma Forall_numbered (P : gmap string value → Prop) headers rows : ∀ idx,
  Forall (λ x, P x.2) (numbered headers idx rows) ↔
  Forall (λ row, P (dict_zip headers row)) rows.
Proof.
  induction rows as [|row rows IH]; intros idx; simpl; [done|].
  by rewrite !Forall_cons, IH.
Qed.

Lemma read_excel_data_no_start now_at headers rows :
  Forall (λ row, starts_invoice (dict_zip headers row) = false) rows →
  read_excel_data now_at headers rows = Ok [].
Proof.
  rewrite read_excel_data_regions.
  rewrite <- (Forall_numbered (λ rd, starts_invoice rd = false) headers rows 2).
  by intros ->%regions_nil.
Qed.

(** X5.  The reader returns the empty list exactly when no row of the
    sheet has a true [Invoice Number] cell; on such a sheet no cell is
    converted, so nothing can raise. *)
Theorem no_invoice_iff_no_start now_at headers rows :
  read_excel_data now_at headers rows = Ok [] ↔
  Forall (λ row, starts_invoice (dict_zip headers row) = false) rows.
Proof.
  rewrite read_excel_data_regions.
  rewrite <- (Forall_numbered (λ rd, starts_invoice rd = false) headers rows 2).
  rewrite <- regions_nil. split.
  - apply map_result_nil_inv.
  - by intros ->.
Qed.

(** X6.  On a sheet without a column headed [Invoice Number] the reader
    returns the empty list, whatever the rows hold. *)
Theorem missing_number_column now_at headers rows :
  VStr "Invoice Number" ∉ headers →
  read_excel_data now_at headers rows = Ok [].
Proof.
  intros Hmiss. apply read_excel_data_no_start.
  apply Forall_forall. intros row _. unfold starts_invoice, get.
  rewrite (dict_zip_absent headers row "Invoice Number"); [done|].
  intros Hk. by apply Hmiss, (columns_keys headers row).
Qed.

(** The starting rows of the regions are the rows that start an invoice. *)
Lemma regions_starts (p : gmap string value → bool) l :
  (λ reg, reg.1.2) <$> regions p l = List.filter p l.*2.
Proof.
  induction l as [|x l IH]; [done|].
  change (regions p (x :: l)) with
    (if p x.2 then (x, region p l) :: regions p l else regions p l).
  change (List.filter p (x :: l).*2) with
    (if p x.2 then x.2 :: List.filter p l.*2 else List.filter p l.*2).
  destruct (p x.2); [rewrite fmap_cons; f_equal|]; exact IH.
Qed.

Lemma new_invoice_header now rd inv :
  new_invoice now rd = Ok inv →
  invoice_number inv = py_str (get rd "Invoice Number" (VStr "")) ∧
  customer_name inv = get rd "Customer Name" (VStr "") ∧
  address inv = get rd "Address" (VStr "") ∧
  phone inv = get rd "Phone Number" (VStr "").
Proof.
  unfold new_invoice.
  destruct (numeric_field rd "Tax %"); simpl; [|done].
  destruct (numeric_field rd "Discount %"); simpl; [|done].
  by intros [= <-].
Qed.

(** X7.  The invoices come in the order of the rows that start them, and
    each takes its number (through [str]), customer name, address and phone
    from the cells of its starting row, as they are. *)
Theorem header_fields_follow_starting_rows now_at headers rows invs :
  read_excel_data now_at headers rows = Ok invs →
  Forall2 (λ rd inv,
             invoice_number inv = py_str (get rd "Invoice Number" (VStr "")) ∧
             customer_name inv = get rd "Customer Name" (VStr "") ∧
             address inv = get rd "Address" (VStr "") ∧
             phone inv = get rd "Phone Number" (VStr ""))
          (List.filter starts_invoice (dict_zip headers <$> rows)) invs.
Proof.
  rewrite read_excel_data_regions. intros Hmap%map_result_Forall2.
  rewrite <- (numbered_rows headers rows 2).
  rewrite <- (regions_starts starts_invoice (numbered headers 2 rows)).
  apply Forall2_fmap_l. eapply Forall2_impl; [exact Hmap|].
  intros reg inv. cbv beta. unfold invoice_of_region.
  destruct (new_invoice _ _) as [inv0|e] eqn:Hinv; simpl; [|done].
  destruct (collect_items (region_rows reg)) as [its|e]; simpl; [|done].
  intros [= <-]. simpl. by apply (new_invoice_header (now_at reg.1.1)).
Qed.

End ReaderMore.

(** ** File names, again *)

Lemma invoice_filename_inj cfg n n' :
  invoice_filename cfg n = invoice_filename cfg n' → n = n'.
Proof.
  unfold invoice_filename, path_join.
  change (starts_with_sep ("Invoice_" +:+ n +:+ ".pdf")) with false.
  change (starts_with_sep ("Invoice_" +:+ n' +:+ ".pdf")) with false.
  cbv iota.
  assert (Hinj : ∀ a b, "Invoice_" +:+ a +:+ ".pdf" = "Invoice_" +:+ b +:+ ".pdf" → a = b).
  { intros a b Hab. apply (inj (String.append "Invoice_")) in Hab.
    apply (f_equal list_ascii_of_string) in Hab. rewrite !chars_append in Hab.
    apply app_inv_tail in Hab.
    rewrite <- (string_of_list_ascii_of_string a), Hab.
    apply string_of_list_ascii_of_string. }
  destruct (String.eqb (output_folder cfg) "" || ends_with_sep (output_folder cfg));
    intros Heq.
  - apply (inj (String.append (output_folder cfg))) in Heq. by apply Hinj.
  - apply (inj (String.append (output_folder cfg))) in Heq.
    apply (inj (String.append "/")) in Heq. by apply Hinj.
Qed.

(** X8.  Two invoice numbers are written to the same file exactly when
    they are the same text. *)
Theorem same_file_iff_same_number cfg n n' :
  invoice_filename cfg n = invoice_filename cfg n' ↔ n = n'.
Proof. split; [apply invoice_filename_inj | by intros ->]. Qed.

(** ** Rows that stop the batch *)

Section BatchMore.
Context `{Builtins}.

Lemma read_rows_app now_at headers a b : ∀ idx st,
  read_rows now_at headers idx (a ++ b) st =
  st' ← read_rows now_at headers idx a st;
  read_rows now_at headers (idx + length a) b st'.
Proof.
  induction a as [|row a IH]; intros idx st; simpl.
  - by rewrite Nat.add_0_r.
  - destruct (read_row _ _ _) as [st'|e]; simpl; [|done].
    rewrite IH. by replace (S idx + length a)%nat with (idx + S (length a))%nat by lia.
Qed.

Lemma read_row_open now rd st st' :
  read_row now rd st = Ok st' →
  starts_invoice rd = true ∨ is_Some (current_invoice st) →
  is_Some (current_invoice st').
Proof.
  unfold read_row. fold (starts_invoice rd) (carries_item rd).
  destruct (starts_invoice rd) eqn:Hs; simpl.
  - destruct (new_invoice now rd) as [inv|e]; simpl; [|done].
    destruct (carries_item rd); simpl.
    + destruct (new_item rd); simpl; [|done]. intros [= <-] _. by eexists.
    + intros [= <-] _. by eexists.
  - intros Hst [?|[inv Hopen]]; [done|]. rewrite Hopen in Hst.
    destruct (carries_item rd); simpl in Hst.
    + destruct (new_item rd); simpl in Hst; [|done].
      injection Hst as <-. by eexists.
    + injection Hst as <-. by eexists.
Qed.

Lemma read_rows_open now_at headers rows : ∀ idx st st',
  read_rows now_at headers idx rows st = Ok st' →
  Exists (λ row, starts_invoice (dict_zip headers row) = true) rows ∨
  is_Some (current_invoice st) →
  is_Some (current_invoice st').
Proof.
  induction rows as [|row rows IH]; intros idx st st'; simpl.
  - intros [= <-] [Hex|?]; [|done]. by apply Exists_nil in Hex.
  - destruct (read_row _ _ _) as [st1|e] eqn:Hrow; simpl; [|done].
    intros Hrest Hopen. apply (IH _ _ _ Hrest).
    destruct Hopen as [[Hs|Hex]%Exists_cons|Hopen]; [right|by left|right];
      eapply read_row_open; eauto.
Qed.

(** A row that cannot be converted makes the reader raise, whatever follows. *)
Lemma read_excel_data_bad_row now_at headers pre row post :
  let rd := dict_zip headers row in
  (starts_invoice rd = true ∧
   (is_ok (numeric_field rd "Tax %") = false ∨
    is_ok (numeric_field rd "Discount %") = false)) ∨
  ((starts_invoice rd = true ∨
    Exists (λ r, starts_invoice (dict_zip headers r) = true) pre) ∧
   carries_item rd = true ∧
   (is_ok (numeric_field rd "Quantity") = false ∨
    is_ok (numeric_field rd "Price") = false)) →
  is_ok (read_excel_data now_at headers (pre ++ row :: post)) = false.
Proof.
  intros rd Hbad. unfold read_excel_data. rewrite read_rows_app.
  destruct (read_rows now_at headers 2 pre _) as [st1|e] eqn:Hpre; simpl; [|done].
  fold rd.
  assert (Hrow : is_ok (read_row (now_at (2 + length pre)%nat) rd st1) = false).
  { unfold read_row. fold (starts_invoice rd) (carries_item rd).
    assert (Hinv : is_ok (numeric_field rd "Tax %") = false ∨
                   is_ok (numeric_field rd "Discount %") = false →
                   ∀ now, is_ok (new_invoice now rd) = false).
    { intros Hf now. unfold new_invoice.
      destruct (numeric_field rd "Tax %"); simpl; [|done].
      destruct Hf as [?|Hf]; [done|]. by destruct (numeric_field rd "Discount %"). }
    assert (Hitem : is_ok (numeric_field rd "Quantity") = false ∨
                    is_ok (numeric_field rd "Price") = false →
                    is_ok (new_item rd) = false).
    { intros Hf. unfold new_item.
      destruct (numeric_field rd "Quantity"); simpl; [|done].
      destruct Hf as [?|Hf]; [done|]. by destruct (numeric_field rd "Price"). }
    destruct Hbad as [[Hs Hf]|(Hopen & Hc & Hf)].
    - rewrite Hs. specialize (Hinv Hf (now_at (2 + length pre)%nat)).
      by destruct (new_invoice _ rd).
    - specialize (Hitem Hf). rewrite Hc.
      destruct (starts_invoice rd) eqn:Hs; simpl.
      + destruct (new_invoice _ rd); simpl; [|done]. by destruct (new_item rd).
      + destruct Hopen as [?|Hex]; [done|].
        destruct (read_rows_open _ _ _ _ _ _ Hpre (or_introl Hex)) as [inv ->].
        by destruct (new_item rd). }
  by destruct (read_row _ rd st1).
Qed.

(** X9.  A numeric cell that [float] rejects stops the whole batch before
    any document is written: when the row starts an invoice and the cell is
    its tax or discount, or when the row carries an item of an open invoice
    and the cell is its quantity or price, [process_excel_file] raises and
    leaves the disk as it was. *)
Theorem bad_cell_prevents_every_document w cfg headers pre row post fs :
  let rd := dict_zip headers row in
  (starts_invoice rd = true ∧
   (is_ok (numeric_field rd "Tax %") = false ∨
    is_ok (numeric_field rd "Discount %") = false)) ∨
  ((starts_invoice rd = true ∨
    Exists (λ r, starts_invoice (dict_zip headers r) = true) pre) ∧
   carries_item rd = true ∧
   (is_ok (numeric_field rd "Quantity") = false ∨
    is_ok (numeric_field rd "Price") = false)) →
  ∃ e, process_excel_file w cfg headers (pre ++ row :: post) fs = (Raise e, fs).
Proof.
  intros rd Hbad.
  pose proof (read_excel_data_bad_row (now_read w) headers pre row post Hbad) as Hread.
  unfold process_excel_file.
  destruct (read_excel_data _ _ _) as [invs|e]; [done|]. by exists e.
Qed.

Lemma generate_all_dom w cfg invs : ∀ idx files fs files' fs',
  generate_all w cfg idx invs files fs = (Ok files', fs') →
  dom fs' =
  dom fs ∪ list_to_set (map (λ inv, invoice_filename cfg (invoice_number inv)) invs).
Proof.
  induction invs as [|inv invs IH]; intros idx files fs files' fs'; simpl.
  - intros [= _ <-]. by rewrite union_empty_r_L.
  - destruct (generate_pdf w cfg idx inv fs) as [[filename|e] fs1] eqn:Hgen; [|done].
    apply generate_pdf_ok in Hgen as [-> [story ->]].
    intros ->%IH. rewrite dom_insert_L.
    by rewrite (comm_L (∪) _ (dom fs)), <- (assoc_L (∪)).
Qed.

(** X10.  When [process_excel_file] returns, it returns the names of the
    files of the invoices read, in their order and with repetitions; their
    number is the number of rows with a true [Invoice Number]; and the paths
    on disk are those that were there before together with these names. *)
Theorem batch_success w cfg headers rows fs files fs' :
  process_excel_file w cfg headers rows fs = (Ok files, fs') →
  ∃ invs,
    read_excel_data (now_read w) headers rows = Ok invs ∧
    files = map (λ inv, invoice_filename cfg (invoice_number inv)) invs ∧
    length files =
      length (List.filter starts_invoice (dict_zip headers <$> rows)) ∧
    dom fs' = dom fs ∪ list_to_set files.
Proof.
  unfold process_excel_file.
  destruct (read_excel_data _ _ _) as [invs|e] eqn:Hread; [|done].
  intros Hgen. exists invs.
  pose proof (generate_all_ok _ _ _ _ _ _ _ _ Hgen) as (Hfiles & _ & _).
  simpl in Hfiles. subst files.
  split; [done|]. split; [done|]. split.
  - rewrite length_map.
    rewrite read_excel_data_regions in Hread.
    apply map_result_Forall2, Forall2_length in Hread.
    by rewrite <- Hread, regions_length, numbered_rows.
  - by apply generate_all_dom in Hgen.
Qed.

(** X11.  Invoices with the same number are written to the same file one
    over the other: after a batch, the file of an invoice number holds the
    document of the last invoice with that number, rendered at its own
    turn. *)
Theorem last_document_wins w cfg idx before inv after files fs files' fs' :
  generate_all w cfg idx (before ++ inv :: after) files fs = (Ok files', fs') →
  Forall (λ inv', invoice_number inv' ≠ invoice_number inv) after →
  ∃ fs0,
    fs' !! invoice_filename cfg (invoice_number inv) =
    Some (Pdf (story_of cfg fs0 (now_render w (idx + length before)).1
                 (now_render w (idx + length before)).2 inv)).
Proof.
  rewrite generate_all_app. intros Hgen Hafter.
  destruct (generate_all w cfg idx before files fs) as [[files1|e] fs1]; [|done].
  simpl in Hgen. exists fs1.
  destruct (generate_pdf w cfg (idx + length before) inv fs1)
    as [[filename|e] fs2] eqn:Hone; [|done].
  apply generate_all_ok in Hgen as (_ & _ & Hoff).
  rewrite Hoff.
  - unfold generate_pdf in Hone. destruct (build_error w _ _); [done|].
    injection Hone as _ <-. by rewrite lookup_insert_eq.
  - intros Hin. apply list_elem_of_In, in_map_iff in Hin as (inv' & Heq & Hin).
    rewrite Forall_forall in Hafter.
    apply (Hafter inv'); [by apply list_elem_of_In|].
    by apply (invoice_filename_inj cfg).
Qed.

End BatchMore.

(** ** Configuration *)



Lemma load_config_keeps mk config_file fs r fs' p :
  load_config mk config_file fs = (r, fs') →
  path_exists fs p = true → path_exists fs' p = true.
Proof.
  unfold load_config.
  destruct (match config_file with Some json => json | None => Ok default_json end)
    as [json|e]; [|by intros [= _ <-]].
  remember (config_of json) as c eqn:Hc.
  destruct (path_exists fs (output_folder c)); [by intros [= _ <-]|].
  destruct (mk (output_folder c)); intros [= _ <-]; [done|].
  unfold path_exists. rewrite !bool_decide_eq_true. intros [x Hx].
  destruct (decide (output_folder c = p)) as [->|Hne].
  - rewrite lookup_insert_eq. by eexists.
  - rewrite lookup_insert_ne by done. by eexists.
Qed.

(** ** Uploads *)

Section UploadFacts.
Context `{Builtins}.

Lemma process_excel_file_ok w cfg headers rows fs files fs' :
  process_excel_file w cfg headers rows fs = (Ok files, fs') →
  length files = length (List.filter starts_invoice (dict_zip headers <$> rows)) ∧
  (∀ p, p ∈ files → path_exists fs' p = true) ∧
  (∀ p, p ∉ files → fs' !! p = fs !! p).
Proof.
  unfold process_excel_file.
  destruct (read_excel_data _ _ _) as [invs|e] eqn:Hread; [|done].
  intros Hgen.
  destruct (generate_all_ok _ _ _ _ _ _ _ _ Hgen) as (Hfiles & Hon & Hoff).
  simpl in Hfiles. subst files. split; [|split; [|done]].
  - rewrite length_map.
    rewrite read_excel_data_regions in Hread.
    apply map_result_Forall2, Forall2_length in Hread.
    by rewrite <- Hread, regions_length, numbered_rows.
  - intros p Hp. apply list_elem_of_In, in_map_iff in Hp as (inv & <- & Hin).
    apply Hon. by apply list_elem_of_In.
Qed.

(** X13.  [upload_file] changes the disk only for a request that carries
    a file whose name ends in [.xlsx] or [.xls], in any case of letters. *)
Theorem upload_touches_disk_only_for_excel_names srv request fs :
  (upload_file srv request fs).2 ≠ fs →
  ∃ file base ext,
    request = Some file ∧
    upload_name file = base +:+ "." +:+ ext ∧
    contains_char "." ext = false ∧
    (str_lower ext = "xlsx" ∨ str_lower ext = "xls").
Proof.
  unfold upload_file. destruct request as [file|]; [|done].
  destruct (String.eqb (upload_name file) ""); [done|].
  destruct (allowed_file (upload_name file)) eqn:Hallowed; [|done].
  intros _. destruct (allowed_file_extension _ Hallowed) as (base & ext & Hname & Hext).
  by exists file, base, ext.
Qed.


(** X15.  When a document of an uploaded batch cannot be written, the
    answer is the error message with the redirect to the index page, while
    the documents of the invoices before it stay on disk. *)
Theorem upload_failure_keeps_earlier_documents
    srv file fs headers rows cfg fs1 pre bad post files fs2 e :
  let w := generator_world srv in
  let filepath := path_join "uploads" (secure_filename srv (upload_name file)) in
  upload_name file ≠ "" →
  allowed_file (upload_name file) = true →
  save_error srv filepath = None →
  load_config (makedirs_error srv) (config_json srv) (<[filepath := OtherFile]> fs)
    = (Ok cfg, fs1) →
  upload_book file = Ok (headers, rows) →
  read_excel_data (now_read w) headers rows = Ok (pre ++ bad :: post) →
  generate_all w cfg 1 pre [] fs1 = (Ok files, fs2) →
  (generate_pdf w cfg (S (length pre)) bad fs2).1 = Raise e →
  upload_file srv (Some file) fs = (Ok error_response, fs2) ∧
  ∀ inv, inv ∈ pre →
    path_exists fs2 (invoice_filename cfg (invoice_number inv)) = true.
Proof.
  intros w filepath Hname Hallowed Hsave Hcfg Hbook Hread Hpre Hbad.
  unfold upload_file. apply String.eqb_neq in Hname. rewrite Hname, Hallowed.
  fold filepath. rewrite Hsave, Hcfg, Hbook. simpl.
  unfold process_excel_file. fold w. rewrite Hread.
  rewrite generate_all_app, Hpre. simpl.
  destruct (generate_pdf w cfg (S (length pre)) bad fs2) as [[filename|e'] fs3] eqn:Hgen;
    simpl in Hbad; [done|].
  apply generate_pdf_raise in Hgen as ->. split; [done|].
  by apply generate_all_ok in Hpre as (_ & Hon & _).
Qed.

(** X16.  The count shown on the success page is the number of rows of
    the uploaded sheet with a true [Invoice Number] cell, the message names
    the same count, and the upload is on disk. *)
Theorem upload_success_count srv request fs resp fs' count :
  upload_file srv request fs = (Ok resp, fs') →
  shown resp = SuccessTemplate count →
  ∃ file headers rows,
    request = Some file ∧
    upload_book file = Ok (headers, rows) ∧
    resp = success_response count ∧
    count = length (List.filter starts_invoice (dict_zip headers <$> rows)) ∧
    path_exists fs' (path_join "uploads" (secure_filename srv (upload_name file))) = true.
Proof.
  unfold upload_file. destruct request as [file|]; [|by intros [= <- _]].
  destruct (String.eqb (upload_name file) ""); [by intros [= <- _]|].
  destruct (allowed_file (upload_name file)); [|by intros [= <- _]].
  destruct (save_error srv _); [done|].
  set (filepath := path_join "uploads" (secure_filename srv (upload_name file))).
  destruct (load_config _ _ _) as [[cfg|e] fs1] eqn:Hcfg; [|by intros [= <- _]].
  destruct (upload_book file) as [[headers rows]|e] eqn:Hbook; simpl;
    [|by intros [= <- _]].
  destruct (process_excel_file _ _ _ _ _) as [[files|e] fs2] eqn:Hrun;
    [|by intros [= <- _]].
  intros [= <- <-] [= <-].
  destruct (process_excel_file_ok _ _ _ _ _ _ _ Hrun) as (Hcount & Hon & Hoff).
  exists file, headers, rows. repeat split; try done.
  assert (Hsaved : path_exists fs1 filepath = true).
  { eapply load_config_keeps; [exact Hcfg|].
    unfold path_exists. apply bool_decide_eq_true.
    rewrite lookup_insert_eq. by eexists. }
  fold filepath.
  destruct (decide (filepath ∈ files)) as [Hin|Hout]; [by apply Hon|].
  unfold path_exists in *. by rewrite (Hoff _ Hout).
Qed.

End UploadFacts.

(** ** The sample sheet, read back *)




Section SampleSheet.
Context `{Builtins}.














End SampleSheet.

(** ** Samples *)

Lemma allowed_file_witness : allowed_file "March.XLSX" = true.
Proof.
  apply (proj2 (allowed_file_iff "March.XLSX")).
  exists "March", "XLSX". split; [reflexivity|]. split; [reflexivity|].
  left. reflexivity.
Defined.

Lemma dict_zip_lookup_witness :
  dict_zip twice_headers twice_row !! "Price" = Some (VInt 2).
Proof.
  apply (proj1 (dict_zip_lookup twice_headers twice_row "Price")
           [("Price", VInt 1); ("Item Name", VStr "Widget")] (VInt 2) []).
  - reflexivity.
  - apply not_elem_of_nil.
Defined.

Lemma header_fields_witness :
  Forall2 (λ rd inv,
             invoice_number inv = @py_str CPython (get rd "Invoice Number" (VStr "")) ∧
             customer_name inv = get rd "Customer Name" (VStr "") ∧
             address inv = get rd "Address" (VStr "") ∧
             phone inv = get rd "Phone Number" (VStr ""))
          (List.filter starts_invoice (dict_zip sheet_headers <$> batch_rows))
          batch_invoices.
Proof.
  apply (@header_fields_follow_starting_rows CPython (λ _, sample_now)).
  vm_compute. reflexivity.
Defined.

Lemma column_order_witness :
  @read_excel_data CPython (λ _, sample_now) (swap_first_two sheet_headers)
    (swap_first_two <$> [row_widget; row_gadget; row_bare]) =
  @read_excel_data CPython (λ _, sample_now) sheet_headers
    [row_widget; row_gadget; row_bare].
Proof.
  apply (@column_order_irrelevant CPython).
  repeat constructor;
    first [ apply (bool_decide_unpack _); vm_compute; exact I
          | vm_compute; apply perm_swap ].
Defined.

Lemma no_invoice_witness :
  Forall (λ row, starts_invoice (dict_zip sheet_headers row) = false) [row_orphan].
Proof.
  apply (proj1 (@no_invoice_iff_no_start CPython (λ _, sample_now) sheet_headers
                  [row_orphan])).
  vm_compute. reflexivity.
Defined.

Lemma same_file_witness :
  invoice_filename default_config "INV-001" ≠ invoice_filename default_config "INV-002".
Proof.
  intros Heq. apply (proj1 (same_file_iff_same_number default_config _ _)) in Heq.
  discriminate Heq.
Defined.

Lemma missing_number_column_witness :
  @read_excel_data CPython (λ _, sample_now) renamed_headers
    [row_widget; row_gadget; row_bad_quantity] = Ok [].
Proof.
  apply (@missing_number_column CPython).
  unfold renamed_headers. simpl. intros Hin.
  repeat (apply elem_of_cons in Hin as [Hin|Hin]; [discriminate Hin|]).
  by apply elem_of_nil in Hin.
Defined.

Lemma continuation_cells_witness :
  @read_excel_data CPython (λ _, sample_now) sheet_headers [row_widget; row_gadget] =
  @read_excel_data CPython (λ _, sample_now) sheet_headers [row_widget; row_gadget_filled].
Proof.
  apply (@continuation_cells_ignored CPython).
  constructor; [by left|]. constructor; [|constructor].
  right. split; [vm_compute; reflexivity|]. split; [vm_compute; reflexivity|].
  intros key Hkey. rewrite !elem_of_cons, elem_of_nil in Hkey.
  destruct Hkey as [->|[->|[->|[]]]]; vm_compute; reflexivity.
Defined.

Lemma bad_cell_witness :
  ∃ e, @process_excel_file CPython quiet_world default_config sheet_headers
         ([row_widget; row_gadget] ++ row_bad_quantity :: [row_third]) ∅ = (Raise e, ∅).
Proof.
  apply (@bad_cell_prevents_every_document CPython).
  right. split; [left; vm_compute; reflexivity|].
  split; [vm_compute; reflexivity|]. left. vm_compute. reflexivity.
Defined.

Lemma batch_success_witness :
  length (from_ok (@process_excel_file CPython quiet_world default_config
                     sheet_headers batch_rows ∅).1) = 3%nat.
Proof.
  destruct (@batch_success CPython quiet_world default_config sheet_headers batch_rows ∅
              (from_ok (@process_excel_file CPython quiet_world default_config
                          sheet_headers batch_rows ∅).1)
              (@process_excel_file CPython quiet_world default_config
                 sheet_headers batch_rows ∅).2)
    as (invs & _ & _ & Hlen & _).
  - vm_compute. reflexivity.
  - rewrite Hlen. vm_compute. reflexivity.
Defined.

Lemma last_document_wins_witness :
  ∃ fs0,
    (@generate_all CPython quiet_world default_config 1
       ([invoice_widget] ++ invoice_widget_again :: []) [] ∅).2
    !! "generated_invoices/Invoice_INV-001.pdf" =
    Some (Pdf (@story_of CPython default_config fs0 sample_now sample_now
                 invoice_widget_again)).
Proof.
  apply (@last_document_wins CPython quiet_world default_config 1
           [invoice_widget] invoice_widget_again [] []
           ∅ ["generated_invoices/Invoice_INV-001.pdf";
              "generated_invoices/Invoice_INV-001.pdf"]).
  - vm_compute. reflexivity.
  - constructor.
Defined.


Lemma upload_touches_disk_witness :
  ∃ file base ext,
    Some batch_upload = Some file ∧
    upload_name file = base +:+ "." +:+ ext ∧
    contains_char "." ext = false ∧
    (str_lower ext = "xlsx" ∨ str_lower ext = "xls").
Proof.
  apply (@upload_touches_disk_only_for_excel_names CPython quiet_server
           (Some batch_upload) ∅).
  intros Heq.
  apply (f_equal (λ fs, path_exists fs "uploads/March.XLSX")) in Heq.
  vm_compute in Heq. discriminate Heq.
Defined.


Lemma upload_failure_witness :
  (@upload_file CPython failing_server (Some batch_upload) ∅).1 = Ok error_response ∧
  path_exists (@upload_file CPython failing_server (Some batch_upload) ∅).2
    "generated_invoices/Invoice_INV-001.pdf" = true.
Proof.
  destruct (@upload_failure_keeps_earlier_documents CPython failing_server batch_upload ∅
              sheet_headers batch_rows default_config
              (load_config (λ _, None) None (<["uploads/March.XLSX" := OtherFile]> ∅)).2
              (take 1 batch_invoices) invoice_bare (drop 2 batch_invoices)
              ["generated_invoices/Invoice_INV-001.pdf"]
              (@upload_file CPython failing_server (Some batch_upload) ∅).2
              OSError) as [Hrun Hon].
  - discriminate.
  - vm_compute. reflexivity.
  - reflexivity.
  - vm_compute. reflexivity.
  - reflexivity.
  - vm_compute. reflexivity.
  - vm_compute. reflexivity.
  - vm_compute. reflexivity.
  - split; [by rewrite Hrun|].
    apply (Hon (hd invoice_bare batch_invoices)). vm_compute. left.
Defined.

Lemma upload_success_witness :
  shown (from_ok_response (@upload_file CPython quiet_server (Some batch_upload) ∅).1)
  = SuccessTemplate 3.
Proof.
  destruct (@upload_success_count CPython quiet_server (Some batch_upload) ∅
              (success_response 3)
              (@upload_file CPython quiet_server (Some batch_upload) ∅).2 3)
    as (file & headers & rows & _ & _ & _ & _ & _).
  - vm_compute. reflexivity.
  - reflexivity.
  - vm_compute. reflexivity.
Defined.

